(** * ToDo: the CRUD contract of the NestJS/Mongoose backend and the page client

    A shallow embedding of

    - [backend/src/todo/todo.schema.ts]     (the [Todo] document and its schema),
    - [backend/src/todo/todo.service.ts]    ([TodoService]),
    - [backend/src/todo/todo.controller.ts] ([TodoController]),
    - [frontend/src/app/page.tsx]           (the [Home] component's handlers),

    followed by the properties of the specification stated over it.

    The service is five one-line calls into a Mongoose model, and the
    controller five one-line calls into the service, behind the NestJS router.
    What those calls do is fixed by the schema options the repository writes
    ([required: true], [default: false], [timestamps: true]) and by the options
    it passes ([{ new: true }], and no [runValidators]); the embedding carries
    exactly that part of Mongoose and of NestJS, as state passing over the
    collection.  The two things the process takes from its environment, the
    clock ([Date.now()]) and the freshly generated [ObjectId], are explicit
    arguments. *)

From Stdlib Require Import ZArith NArith String Ascii List Bool Lia.
From stdpp Require Import gmap strings list fin_maps.

Local Open Scope string_scope.

(** ** Identifiers *)

Module ObjectId.

(** A MongoDB ObjectId is a 12-byte value; it is kept as the number its bytes
    spell, big-endian, so that two spellings of the same identifier (upper
    and lower case hexadecimal) are the same key. *)
Abbreviation t := N (only parsing).

Definition bound : N := 2 ^ 96.

(** The value of one hexadecimal digit, in either case. *)
Definition hexDigit (c : ascii) : option N :=
  let n := N_of_ascii c in
  if (48 <=? n)%N && (n <=? 57)%N then Some (n - 48)%N
  else if (97 <=? n)%N && (n <=? 102)%N then Some (n - 87)%N
  else if (65 <=? n)%N && (n <=? 70)%N then Some (n - 55)%N
  else None.

Fixpoint parseHex (s : string) (acc : N) : option N :=
  match s with
  | EmptyString => Some acc
  | String c s' =>
      match hexDigit c with
      | Some d => parseHex s' (16 * acc + d)%N
      | None => None
      end
  end.

(** Mongoose casts the [id] string of [findById] and its siblings to an
    ObjectId: a string of 24 hexadecimal digits is accepted, anything else is
    a cast failure.  (Older drivers also read a 12-character string as twelve
    raw bytes; the properties below use the cast only through its result, and
    their examples are a 24-digit string and a 9-character one.) *)
Definition castObjectId (s : string) : option t :=
  if Nat.eqb (String.length s) 24 then parseHex s 0 else None.

Definition digitHex (d : N) : ascii :=
  if (d <? 10)%N then ascii_of_N (48 + d) else ascii_of_N (87 + d).

Fixpoint hexOfLen (k : nat) (n : N) : string :=
  match k with
  | O => EmptyString
  | S k' => hexOfLen k' (n / 16)%N +:+ String (digitHex (n mod 16)%N) EmptyString
  end.

(** [ObjectId.prototype.toHexString]: the 24 lower-case digits under which
    the identifier appears as ["_id"] in a JSON response. *)
Definition toHexString (o : t) : string := hexOfLen 24 o.

End ObjectId.

(** ** The schema (todo.schema.ts) *)

(** A stored document of the [todos] collection.  [title], [completed] and
    [description] are the three [@Prop]s of the class; [_id] is added by
    Mongoose, [createdAt] and [updatedAt] by [timestamps: true] (milliseconds
    since the epoch).  [description] has no options: it may be absent. *)
Record Todo : Type := mkTodo {
  _id : ObjectId.t;
  title : string;
  completed : bool;
  description : option string;
  createdAt : Z;
  updatedAt : Z
}.

(** The body of [POST /todos], typed [{ title: string; description?: string }].
    The body is parsed JSON, so [title] may in fact be absent: [None] is that
    case.  [completed] is not part of the type. *)
Module CreateTodoDto.
Record t : Type := mk { title : option string; description : option string }.
End CreateTodoDto.

(** The body of [PUT /todos/:id], typed
    [{ title?: string; completed?: boolean; description?: string }]. *)
Module UpdateTodoDto.
Record t : Type := mk {
  title : option string;
  completed : option bool;
  description : option string
}.
End UpdateTodoDto.

(** ** The Mongoose model the service is injected with *)

Module Mongoose.

(** The errors a query or a save rejects with; [name] is the error's [name]
    property. *)
Inductive Error : Type :=
| ValidationError (path kind : string)
| CastError (path value : string)
| MongoServerError (code : Z).

Definition name (e : Error) : string :=
  match e with
  | ValidationError _ _ => "ValidationError"
  | CastError _ _ => "CastError"
  | MongoServerError _ => "MongoServerError"
  end.

(** How a promise settles. *)
Inductive Promise (A : Type) : Type :=
| Resolved (a : A)
| Rejected (e : Error).
Arguments Resolved {A} a.
Arguments Rejected {A} e.

(** The collection, keyed by [_id] (MongoDB's unique index). *)
Abbreviation Collection := (gmap N Todo) (only parsing).

(** [new this.todoModel(dto)]: a document not yet saved.  It gets its [_id]
    at construction, and [completed] its schema default. *)
Record Document : Type := mkDocument {
  doc_id : ObjectId.t;
  doc_title : option string;
  doc_completed : bool;
  doc_description : option string
}.

Definition new (oid : ObjectId.t) (dto : CreateTodoDto.t) : Document :=
  {| doc_id := oid;
     doc_title := CreateTodoDto.title dto;
     doc_completed := false;
     doc_description := CreateTodoDto.description dto |}.

(** The [required: true] validator of a String path: the value must be a
    string of non-zero length. *)
Definition checkRequired (v : option string) : option string :=
  match v with
  | Some s => if String.eqb s "" then None else Some s
  | None => None
  end.

(** [doc.save()] of a new document at time [now]: validate, stamp
    [createdAt = updatedAt = now], insert.  An [_id] already in the
    collection is MongoDB's duplicate-key error 11000. *)
Definition save (now : Z) (d : Document) (db : Collection)
  : Promise Todo * Collection :=
  match checkRequired (doc_title d) with
  | None => (Rejected (ValidationError "title" "required"), db)
  | Some s =>
      match db !! doc_id d with
      | Some _ => (Rejected (MongoServerError 11000), db)
      | None =>
          let t := {| _id := doc_id d; title := s;
                      completed := doc_completed d;
                      description := doc_description d;
                      createdAt := now; updatedAt := now |} in
          (Resolved t, <[doc_id d := t]> db)
      end
  end.

(** [Model.find().exec()]: every document; the order is the map's. *)
Definition find (db : Collection) : Promise (list Todo) * Collection :=
  (Resolved (snd <$> map_to_list db), db).

(** [Model.findById(id).exec()]: [null] when no document has that [_id]. *)
Definition findById (id : string) (db : Collection)
  : Promise (option Todo) * Collection :=
  match ObjectId.castObjectId id with
  | None => (Rejected (CastError "_id" id), db)
  | Some oid => (Resolved (db !! oid), db)
  end.

(** The update document is applied as [$set] of the fields it has, and
    [timestamps: true] adds [updatedAt = now] to every update.  No validator
    runs: the call does not pass [runValidators]. *)
Definition applyUpdate (now : Z) (u : UpdateTodoDto.t) (t : Todo) : Todo :=
  {| _id := _id t;
     title := default (title t) (UpdateTodoDto.title u);
     completed := default (completed t) (UpdateTodoDto.completed u);
     description :=
       match UpdateTodoDto.description u with
       | Some s => Some s
       | None => description t
       end;
     createdAt := createdAt t;
     updatedAt := now |}.

(** [Model.findByIdAndUpdate(id, update, { new: true }).exec()]: the document
    after the update, or [null] when none has that [_id]. *)
Definition findByIdAndUpdate (now : Z) (id : string) (u : UpdateTodoDto.t)
    (db : Collection) : Promise (option Todo) * Collection :=
  match ObjectId.castObjectId id with
  | None => (Rejected (CastError "_id" id), db)
  | Some oid =>
      match db !! oid with
      | None => (Resolved None, db)
      | Some t =>
          let t' := applyUpdate now u t in
          (Resolved (Some t'), <[oid := t']> db)
      end
  end.

(** [Model.findByIdAndDelete(id).exec()]: the document that was removed, or
    [null]. *)
Definition findByIdAndDelete (id : string) (db : Collection)
  : Promise (option Todo) * Collection :=
  match ObjectId.castObjectId id with
  | None => (Rejected (CastError "_id" id), db)
  | Some oid =>
      match db !! oid with
      | None => (Resolved None, db)
      | Some t => (Resolved (Some t), delete oid db)
      end
  end.

End Mongoose.

Import Mongoose (Promise, Resolved, Rejected).

(** ** TodoService (todo.service.ts) *)

Module TodoService.

Import Mongoose.

(** [create]: [new this.todoModel(createTodoDto)] then [.save()].  [oid] is
    the identifier the new document was given. *)
Definition create (now : Z) (oid : ObjectId.t) (createTodoDto : CreateTodoDto.t)
    (db : Collection) : Promise Todo * Collection :=
  let createdTodo := Mongoose.new oid createTodoDto in
  save now createdTodo db.

Definition findAll (db : Collection) : Promise (list Todo) * Collection :=
  find db.

Definition findOne (id : string) (db : Collection)
  : Promise (option Todo) * Collection :=
  findById id db.

Definition update (now : Z) (id : string) (updateTodoDto : UpdateTodoDto.t)
    (db : Collection) : Promise (option Todo) * Collection :=
  findByIdAndUpdate now id updateTodoDto db.

Definition delete (id : string) (db : Collection)
  : Promise (option Todo) * Collection :=
  findByIdAndDelete id db.

End TodoService.

(** ** TodoController (todo.controller.ts) behind the NestJS router *)

Module Nest.

Import Mongoose.

(** What a handler's promise resolves to: a document, an array of documents,
    or [null]. *)
Inductive Value : Type :=
| VTodo (t : Todo)
| VTodos (l : list Todo)
| VNull.

Inductive Body : Type :=
| BodyTodo (t : Todo)
| BodyTodos (l : list Todo)
| BodyEmpty
| BodyError (statusCode : Z) (message : string).

Record Response : Type := mkResponse { status : Z; body : Body }.

(** A resolved value is sent as JSON; [null] is sent as an empty body. *)
Definition toBody (v : Value) : Body :=
  match v with
  | VTodo t => BodyTodo t
  | VTodos l => BodyTodos l
  | VNull => BodyEmpty
  end.

(** The router's reply to a settled handler.  A resolved value goes out under
    the route's status code.  A rejection that is not an [HttpException]
    (the controller throws none, and no exception filter is registered) goes
    through the default filter. *)
Definition reply (httpCode : Z) (p : Promise Value) : Response :=
  match p with
  | Resolved v => {| status := httpCode; body := toBody v |}
  | Rejected _ => {| status := 500; body := BodyError 500 "Internal server error" |}
  end.

End Nest.

Module TodoController.

Import Mongoose Nest.

Definition ofTodo (r : Promise Todo * Collection) : Promise Value * Collection :=
  match r with
  | (Resolved t, db) => (Resolved (VTodo t), db)
  | (Rejected e, db) => (Rejected e, db)
  end.

Definition ofTodos (r : Promise (list Todo) * Collection) : Promise Value * Collection :=
  match r with
  | (Resolved l, db) => (Resolved (VTodos l), db)
  | (Rejected e, db) => (Rejected e, db)
  end.

Definition ofNullable (r : Promise (option Todo) * Collection)
  : Promise Value * Collection :=
  match r with
  | (Resolved (Some t), db) => (Resolved (VTodo t), db)
  | (Resolved None, db) => (Resolved VNull, db)
  | (Rejected e, db) => (Rejected e, db)
  end.

(** The five handlers: each returns what the service returns. *)
Definition create (now : Z) (oid : ObjectId.t) (createTodoDto : CreateTodoDto.t)
    (db : Collection) : Promise Value * Collection :=
  ofTodo (TodoService.create now oid createTodoDto db).

Definition findAll (db : Collection) : Promise Value * Collection :=
  ofTodos (TodoService.findAll db).

Definition findOne (id : string) (db : Collection) : Promise Value * Collection :=
  ofNullable (TodoService.findOne id db).

Definition update (now : Z) (id : string) (updateTodoDto : UpdateTodoDto.t)
    (db : Collection) : Promise Value * Collection :=
  ofNullable (TodoService.update now id updateTodoDto db).

Definition delete (id : string) (db : Collection) : Promise Value * Collection :=
  ofNullable (TodoService.delete id db).

(** The routes of [@Controller('todos')]. *)
Inductive Request : Type :=
| POST_todos (body : CreateTodoDto.t)
| GET_todos
| GET_todos_id (id : string)
| PUT_todos_id (id : string) (body : UpdateTodoDto.t)
| DELETE_todos_id (id : string).

(** The status of a resolved handler: 201 for [@Post()], 200 for the others
    (no [@HttpCode] is written). *)
Definition httpCode (req : Request) : Z :=
  match req with
  | POST_todos _ => 201
  | _ => 200
  end.

Definition dispatch (now : Z) (oid : ObjectId.t) (req : Request) (db : Collection)
  : Promise Value * Collection :=
  match req with
  | POST_todos dto => create now oid dto db
  | GET_todos => findAll db
  | GET_todos_id id => findOne id db
  | PUT_todos_id id dto => update now id dto db
  | DELETE_todos_id id => delete id db
  end.

(** One request, served at time [now]; [oid] is the identifier a document
    created by this request gets. *)
Definition handle (now : Z) (oid : ObjectId.t) (req : Request) (db : Collection)
  : Response * Collection :=
  let (p, db') := dispatch now oid req db in
  (reply (httpCode req) p, db').

(** A request as it reaches the server. *)
Record Call : Type := mkCall { at_time : Z; fresh_id : ObjectId.t; request : Request }.

Definition step (c : Call) (db : Collection) : Collection :=
  snd (handle (at_time c) (fresh_id c) (request c) db).

(** The collection after a sequence of requests, served in order. *)
Definition run (calls : list Call) (db : Collection) : Collection :=
  fold_left (fun acc c => step c acc) calls db.

End TodoController.

(** ** The page (frontend/src/app/page.tsx) *)

Module Page.

(** [interface Todo] of the client. *)
Module Todo.
Record t : Type := mk {
  _id : string;
  title : string;
  description : option string;
  completed : bool;
  createdAt : option string;
  updatedAt : option string
}.
End Todo.

Definition API_URL : string := "http://localhost:3001/todos".

(** What [response.json()] yields, and so what [setTodos] may be given: the
    array of todos the page expects, or any other JSON value (the error
    object of a failed request, for one), kept as its text.  The cell is
    typed [Todo[]], which nothing checks when the page runs. *)
Inductive Json : Type :=
| Todos (data : list Todo.t)
| OtherJson (text : string).

(** The [useState] cells of [Home]. *)
Record State : Type := mkState {
  todos : Json;
  title : string;
  description : string;
  editingId : option string;
  editTitle : string;
  editDescription : string;
  loading : bool
}.

Definition setTodos (v : Json) (st : State) : State :=
  {| todos := v; title := title st; description := description st;
     editingId := editingId st; editTitle := editTitle st;
     editDescription := editDescription st; loading := loading st |}.

Definition setTitle (v : string) (st : State) : State :=
  {| todos := todos st; title := v; description := description st;
     editingId := editingId st; editTitle := editTitle st;
     editDescription := editDescription st; loading := loading st |}.

Definition setDescription (v : string) (st : State) : State :=
  {| todos := todos st; title := title st; description := v;
     editingId := editingId st; editTitle := editTitle st;
     editDescription := editDescription st; loading := loading st |}.

Definition setEditingId (v : option string) (st : State) : State :=
  {| todos := todos st; title := title st; description := description st;
     editingId := v; editTitle := editTitle st;
     editDescription := editDescription st; loading := loading st |}.

Definition setEditTitle (v : string) (st : State) : State :=
  {| todos := todos st; title := title st; description := description st;
     editingId := editingId st; editTitle := v;
     editDescription := editDescription st; loading := loading st |}.

Definition setEditDescription (v : string) (st : State) : State :=
  {| todos := todos st; title := title st; description := description st;
     editingId := editingId st; editTitle := editTitle st;
     editDescription := v; loading := loading st |}.

Definition setLoading (v : bool) (st : State) : State :=
  {| todos := todos st; title := title st; description := description st;
     editingId := editingId st; editTitle := editTitle st;
     editDescription := editDescription st; loading := v |}.

(** What a handler does to the world, in order. *)
Inductive Method : Type := GET | POST | PUT | DELETE.

Inductive Payload : Type :=
| TitleDescription (title description : string)
| Completed (completed : bool).

Record HttpCall : Type := mkHttpCall {
  method : Method;
  url : string;
  payload : option Payload
}.

Inductive Effect : Type :=
| PreventDefault
| Fetch (c : HttpCall)
| ConsoleError (msg : string)
| Alert (msg : string).

(** How an awaited [fetch] ends: it throws (no response arrived) or it
    resolves with a response of some status. *)
Inductive FetchResult : Type :=
| Threw
| Response (status : Z).

(** [response.ok]. *)
Definition ok (status : Z) : bool := (200 <=? status)%Z && (status <=? 299)%Z.

(** [String.prototype.trim], over strings of 8-bit code units: of the white
    space and line terminator code points, those below 256 are 9 to 13, 32
    and 160. *)
Definition isWhiteSpace (c : ascii) : bool :=
  let n := N_of_ascii c in
  ((9 <=? n)%N && (n <=? 13)%N) || (n =? 32)%N || (n =? 160)%N.

Fixpoint trimStart (s : string) : string :=
  match s with
  | EmptyString => EmptyString
  | String c s' => if isWhiteSpace c then trimStart s' else s
  end.

Fixpoint trimEnd (s : string) : string :=
  match s with
  | EmptyString => EmptyString
  | String c s' =>
      let r := trimEnd s' in
      if isWhiteSpace c && String.eqb r "" then EmptyString else String c r
  end.

Definition trim (s : string) : string := trimEnd (trimStart s).

(** [!s.trim()]. *)
Definition blank (s : string) : bool := String.eqb (trim s) "".

Definition listCall : HttpCall :=
  {| method := GET; url := API_URL; payload := None |}.

(** [fetchTodos()] up to its first [await]: this much runs when a handler
    calls it without awaiting it. *)
Definition fetchTodos_start (st : State) : State * list Effect :=
  (setLoading true st, [Fetch listCall]).

(** How the list fetch ends: [fetch] or [response.json()] throws, or a
    response of some status arrives whose body parses as JSON. *)
Inductive ListResult : Type :=
| ListThrew
| ListJson (status : Z) (data : Json).

(** The rest of [fetchTodos], once the fetch and [response.json()] have
    settled.  The status of the response is not looked at: whatever was
    parsed goes to [setTodos]. *)
Definition fetchTodos_settle (r : ListResult) (st : State)
  : State * list Effect :=
  match r with
  | ListJson _ data => (setLoading false (setTodos data st), [])
  | ListThrew =>
      (setLoading false st,
       [ConsoleError "Error fetching todos:";
        Alert "Failed to fetch todos. Make sure the backend is running on http://localhost:3001"])
  end.

Definition createCall (st : State) : HttpCall :=
  {| method := POST; url := API_URL;
     payload := Some (TitleDescription (title st) (description st)) |}.

(** [createTodo]; [r] is how its [fetch] ends. *)
Definition createTodo (r : FetchResult) (st : State) : State * list Effect :=
  if blank (title st) then (st, [PreventDefault])
  else
    match r with
    | Response status =>
        if ok status then
          let st1 := setDescription "" (setTitle "" st) in
          let (st2, es) := fetchTodos_start st1 in
          (st2, PreventDefault :: Fetch (createCall st) :: es)
        else (st, [PreventDefault; Fetch (createCall st)])
    | Threw =>
        (st, [PreventDefault; Fetch (createCall st);
              ConsoleError "Error creating todo:"; Alert "Failed to create todo"])
    end.

Definition toggleCall (id : string) (completed : bool) : HttpCall :=
  {| method := PUT; url := API_URL +:+ "/" +:+ id;
     payload := Some (Completed (negb completed)) |}.

(** [toggleComplete]. *)
Definition toggleComplete (id : string) (completed : bool) (r : FetchResult)
    (st : State) : State * list Effect :=
  match r with
  | Response _ =>
      let (st1, es) := fetchTodos_start st in
      (st1, Fetch (toggleCall id completed) :: es)
  | Threw =>
      (st, [Fetch (toggleCall id completed);
            ConsoleError "Error updating todo:"; Alert "Failed to update todo"])
  end.

Definition startEdit (todo : Todo.t) (st : State) : State :=
  setEditDescription (default "" (Todo.description todo))
    (setEditTitle (Todo.title todo) (setEditingId (Some (Todo._id todo)) st)).

Definition editCall (id : string) (st : State) : HttpCall :=
  {| method := PUT; url := API_URL +:+ "/" +:+ id;
     payload := Some (TitleDescription (editTitle st) (editDescription st)) |}.

(** [saveEdit]. *)
Definition saveEdit (id : string) (r : FetchResult) (st : State)
  : State * list Effect :=
  if blank (editTitle st) then (st, [])
  else
    match r with
    | Response _ =>
        let st1 := setEditDescription "" (setEditTitle "" (setEditingId None st)) in
        let (st2, es) := fetchTodos_start st1 in
        (st2, Fetch (editCall id st) :: es)
    | Threw =>
        (st, [Fetch (editCall id st);
              ConsoleError "Error updating todo:"; Alert "Failed to update todo"])
    end.

Definition cancelEdit (st : State) : State :=
  setEditDescription "" (setEditTitle "" (setEditingId None st)).

Definition deleteCall (id : string) : HttpCall :=
  {| method := DELETE; url := API_URL +:+ "/" +:+ id; payload := None |}.

(** [deleteTodo]; [confirmed] is the answer to the [confirm] dialog. *)
Definition deleteTodo (id : string) (confirmed : bool) (r : FetchResult)
    (st : State) : State * list Effect :=
  if negb confirmed then (st, [])
  else
    match r with
    | Response _ =>
        let (st1, es) := fetchTodos_start st in
        (st1, Fetch (deleteCall id) :: es)
    | Threw =>
        (st, [Fetch (deleteCall id);
              ConsoleError "Error deleting todo:"; Alert "Failed to delete todo"])
    end.

(** The HTTP calls among a handler's effects, in the order they were issued. *)
Fixpoint issued (es : list Effect) : list HttpCall :=
  match es with
  | [] => []
  | Fetch c :: es' => c :: issued es'
  | _ :: es' => issued es'
  end.

(** The four mutating actions of the page. *)
Inductive Action : Type :=
| Create
| Toggle (id : string) (completed : bool)
| Save (id : string)
| Delete (id : string).

Definition perform (a : Action) (r : FetchResult) (st : State) : State * list Effect :=
  match a with
  | Create => createTodo r st
  | Toggle id completed => toggleComplete id completed r st
  | Save id => saveEdit id r st
  | Delete id => deleteTodo id true r st
  end.

(** The call an action makes to the server. *)
Definition mutation (a : Action) (st : State) : HttpCall :=
  match a with
  | Create => createCall st
  | Toggle id completed => toggleCall id completed
  | Save id => editCall id st
  | Delete id => deleteCall id
  end.

(** The guard an action passes before it calls the server at all. *)
Definition proceeds (a : Action) (st : State) : bool :=
  match a with
  | Create => negb (blank (title st))
  | Save _ => negb (blank (editTitle st))
  | Toggle _ _ | Delete _ => true
  end.

(** [fetchTodos()] from its call to its end. *)
Definition fetchTodos (r : ListResult) (st : State) : State * list Effect :=
  let (st1, es1) := fetchTodos_start st in
  let (st2, es2) := fetchTodos_settle r st1 in
  (st2, (es1 ++ es2)%list).

(** Every code unit of the string is white space. *)
Fixpoint allWhiteSpace (s : string) : bool :=
  match s with
  | EmptyString => true
  | String c s' => isWhiteSpace c && allWhiteSpace s'
  end.

(** The state has no edit open. *)
Definition notEditing (st : State) : Prop :=
  editingId st = None /\ editTitle st = "" /\ editDescription st = "".

End Page.

(** ** The words of the specification *)

(** A promise fails with the error of a given name. *)
Definition failsWith {A : Type} (n : string) (p : Promise A) : Prop :=
  exists e, p = Rejected e /\ Mongoose.name e = n.

(** The stored record an identifier resolves to, if any: none when the
    identifier is malformed, none when no record has it. *)
Definition resolves (id : string) (db : gmap N Todo) : option Todo :=
  match ObjectId.castObjectId id with
  | Some oid => db !! oid
  | None => None
  end.

(** How the keyed calls settle on an identifier that resolves to nothing:
    [null] for a well-formed identifier, a cast error for a malformed one. *)
Definition unresolved (id : string) : Promise (option Todo) :=
  match ObjectId.castObjectId id with
  | Some _ => Resolved None
  | None => Rejected (Mongoose.CastError "_id" id)
  end.

(** An identifier the generator may hand to a new document of [db]: twelve
    bytes, and not in use. *)
Definition newIdentifier (oid : N) (db : gmap N Todo) : Prop :=
  (oid < ObjectId.bound)%N /\ db !! oid = None.

(** No stored record has an empty title. *)
Definition titled (db : gmap N Todo) : Prop :=
  forall k t, db !! k = Some t -> title t <> "".

(** The request is an update that supplies the empty string as title. *)
Definition clearsTitle (req : TodoController.Request) : bool :=
  match req with
  | TodoController.PUT_todos_id _ u =>
      match UpdateTodoDto.title u with
      | Some s => String.eqb s ""
      | None => false
      end
  | _ => false
  end.

(** Among the calls a handler issued, the full list fetch comes after the
    call [c]. *)
Definition refetchesAfter (c : Page.HttpCall) (calls : list Page.HttpCall) : Prop :=
  exists before after, calls = (before ++ c :: after)%list /\ In Page.listCall after.

(** ** Sample data *)

(** The identifier the controller's comments use as their example, and the
    example request bodies of the specification. *)
Definition sampleId : N := 0x507f1f77bcf86cd799439011%N.

Definition buyMilk : CreateTodoDto.t :=
  CreateTodoDto.mk (Some "Buy milk") None.

Definition buyGroceries : CreateTodoDto.t :=
  CreateTodoDto.mk (Some "Buy groceries") (Some "Milk and eggs").

Definition setCompleted : UpdateTodoDto.t :=
  UpdateTodoDto.mk None (Some true) None.

Definition setEmptyTitle : UpdateTodoDto.t :=
  UpdateTodoDto.mk (Some "") None None.

(** A collection of two records. *)
Definition twoRecords : gmap N Todo :=
  <[ sampleId := mkTodo sampleId "Buy groceries" false (Some "Milk and eggs") 2 2 ]>
    {[ 7%N := mkTodo 7 "Buy milk" false None 1 1 ]}.

(** ** Start-up and configuration (main.ts, app.module.ts) *)

Module Bootstrap.

(** [configService.get(key)]: the variable's text, or [undefined]. *)
Abbreviation Config := (string -> option string) (only parsing).

(** [v || d] for a [v] that is a string or [undefined]: [d] when [v] is
    [undefined] or the empty string. *)
Definition orElse (v : option string) (d : string) : string :=
  match v with
  | Some s => if String.eqb s "" then d else s
  | None => d
  end.

(** The [uri] of [MongooseModule.forRootAsync] in app.module.ts. *)
Definition uri (get : Config) : string :=
  orElse (get "MONGODB_URI") "mongodb://localhost:27017/todoapp".

(** What [app.listen] is given: the text of [PORT], or the number 3001. *)
Inductive Port : Type :=
| PortText (s : string)
| PortNumber (n : Z).

Definition port (get : Config) : Port :=
  match get "PORT" with
  | Some s => if String.eqb s "" then PortNumber 3001 else PortText s
  | None => PortNumber 3001
  end.

(** [s.split(',')]. *)
Fixpoint split (s : string) : list string :=
  match s with
  | EmptyString => [EmptyString]
  | String c s' =>
      if Ascii.eqb c "," then EmptyString :: split s'
      else
        match split s' with
        | piece :: pieces => String c piece :: pieces
        | [] => [String c EmptyString]
        end
  end.

(** [pieces.join(sep)]. *)
Fixpoint join (sep : string) (pieces : list string) : string :=
  match pieces with
  | [] => EmptyString
  | [piece] => piece
  | piece :: rest => piece +:+ sep +:+ join sep rest
  end.

(** [configService.get('CORS_ORIGINS')?.split(',') || [...]]: an array is
    never falsy, so the two defaults stand in for an unset variable only. *)
Definition corsOrigins (get : Config) : list string :=
  match get "CORS_ORIGINS" with
  | Some s => split s
  | None => ["http://localhost:3000"; "http://localhost:3002"]
  end.

(** The options [app.enableCors] is called with. *)
Record CorsOptions : Type := mkCorsOptions {
  origin : list string;
  methods : string;
  credentials : bool
}.

(** [bootstrap()], without its two [console.log] lines: the CORS options
    and the port the server listens on. *)
Definition bootstrap (get : Config) : CorsOptions * Port :=
  ({| origin := corsOrigins get;
      methods := "GET,HEAD,PUT,PATCH,POST,DELETE";
      credentials := true |},
   port get).

(** The number of commas of a string. *)
Fixpoint commas (s : string) : nat :=
  match s with
  | EmptyString => O
  | String c s' => if Ascii.eqb c "," then S (commas s') else commas s'
  end.

End Bootstrap.

(** ** More words for the properties *)

(** Every record is stored under its own [_id]. *)
Definition keyedById (db : gmap N Todo) : Prop :=
  forall k t, db !! k = Some t -> _id t = k.

(** Both stamps of every record lie in order and not after [hi]. *)
Definition stampedBy (hi : Z) (db : gmap N Todo) : Prop :=
  forall k t, db !! k = Some t -> (createdAt t <= updatedAt t <= hi)%Z.

(** The requests are served at times that never go back, none before [from]. *)
Fixpoint servedInOrder (from : Z) (calls : list TodoController.Call) : bool :=
  match calls with
  | [] => true
  | c :: calls' =>
      (from <=? TodoController.at_time c)%Z
      && servedInOrder (TodoController.at_time c) calls'
  end.

(** The request is a delete of the record with identifier [k]. *)
Definition deletesKey (k : N) (req : TodoController.Request) : bool :=
  match req with
  | TodoController.DELETE_todos_id id =>
      match ObjectId.castObjectId id with
      | Some k' => N.eqb k k'
      | None => false
      end
  | _ => false
  end.

(** The call is a create that hands out the identifier [k]. *)
Definition createsKey (k : N) (c : TodoController.Call) : bool :=
  match TodoController.request c with
  | TodoController.POST_todos _ => N.eqb k (TodoController.fresh_id c)
  | _ => false
  end.

(** One update body that says what [u1] followed by [u2] says: a field of
    [u2] where it has one, else the field of [u1]. *)
Definition mergeUpdate (u1 u2 : UpdateTodoDto.t) : UpdateTodoDto.t :=
  {| UpdateTodoDto.title :=
       match UpdateTodoDto.title u2 with
       | Some s => Some s
       | None => UpdateTodoDto.title u1
       end;
     UpdateTodoDto.completed :=
       match UpdateTodoDto.completed u2 with
       | Some b => Some b
       | None => UpdateTodoDto.completed u1
       end;
     UpdateTodoDto.description :=
       match UpdateTodoDto.description u2 with
       | Some s => Some s
       | None => UpdateTodoDto.description u1
       end |}.

(** * Properties *)

(** ** Identifiers: printing and casting *)

Section ObjectIdFacts.

Import ObjectId.

Lemma hexDigit_digitHex (d : N) :
  (d < 16)%N -> hexDigit (digitHex d) = Some d.
Proof.
  intros Hd.
  assert (Hcases : In d (map N.of_nat (seq 0 16))).
  { apply in_map_iff. exists (N.to_nat d). split; [lia|]. apply in_seq. lia. }
  simpl in Hcases.
  repeat (destruct Hcases as [<- | Hcases]; [reflexivity|]).
  contradiction.
Qed.

Lemma parseHex_app (s1 s2 : string) (acc : N) :
  parseHex (s1 +:+ s2) acc =
  match parseHex s1 acc with
  | Some a => parseHex s2 a
  | None => None
  end.
Proof.
  revert acc. induction s1 as [|c s1 IH]; intros acc; simpl; [reflexivity|].
  destruct (hexDigit c); [apply IH | reflexivity].
Qed.

Lemma parseHex_hexOfLen (k : nat) (n acc : N) :
  parseHex (hexOfLen k n) acc = Some (acc * 16 ^ N.of_nat k + n mod 16 ^ N.of_nat k)%N.
Proof.
  revert n acc. induction k as [|k IH]; intros n acc.
  - simpl. f_equal. rewrite N.mod_1_r. lia.
  - cbn [hexOfLen]. rewrite parseHex_app, IH. cbn [parseHex].
    rewrite hexDigit_digitHex by (apply N.mod_lt; lia).
    f_equal. rewrite Nat2N.inj_succ, N.pow_succ_r'.
    rewrite (N.Div0.mod_mul_r n 16 (16 ^ N.of_nat k)). lia.
Qed.

Lemma length_append (s1 s2 : string) :
  String.length (s1 +:+ s2) = (String.length s1 + String.length s2)%nat.
Proof. induction s1 as [|c s1 IH]; simpl; [reflexivity | now rewrite IH]. Qed.

Lemma length_hexOfLen (k : nat) (n : N) : String.length (hexOfLen k n) = k.
Proof.
  revert n. induction k as [|k IH]; intros n; [reflexivity|].
  cbn [hexOfLen]. rewrite length_append, IH. simpl. lia.
Qed.

(** Casting the printed form of an identifier gives the identifier back. *)
Lemma castObjectId_toHexString (o : N) :
  (o < bound)%N -> castObjectId (toHexString o) = Some o.
Proof.
  intros Ho. unfold castObjectId, toHexString.
  rewrite length_hexOfLen, Nat.eqb_refl, parseHex_hexOfLen.
  f_equal. change (16 ^ N.of_nat 24)%N with bound.
  rewrite N.mod_small by exact Ho. lia.
Qed.

End ObjectIdFacts.

(** ** The store: what each service call does to the collection *)

Section StoreFacts.

Import Mongoose.

Implicit Types (db : gmap N Todo) (t : Todo) (id : string) (oid k : N).

Lemma checkRequired_Some (v : option string) (s : string) :
  checkRequired v = Some s <-> v = Some s /\ s <> "".
Proof.
  unfold checkRequired. destruct v as [s'|]; [|split; [discriminate | intros [? _]; discriminate]].
  destruct (String.eqb_spec s' "") as [->|Hne]; split.
  - discriminate.
  - intros [[= ->] Hs]. now contradiction Hs.
  - intros [= ->]. now split.
  - intros [[= ->] _]. reflexivity.
Qed.

Lemma checkRequired_None (v : option string) :
  checkRequired v = None <-> v = None \/ v = Some "".
Proof.
  unfold checkRequired. destruct v as [s'|]; [|split; auto].
  destruct (String.eqb_spec s' "") as [->|Hne]; split; auto; try discriminate.
  intros [|[= ->]]; [discriminate | now contradiction Hne].
Qed.

(** [create] on a title that passes the validator and a free identifier. *)
Lemma create_ok now oid s d db :
  s <> "" -> db !! oid = None ->
  TodoService.create now oid (CreateTodoDto.mk (Some s) d) db =
  (Resolved (mkTodo oid s false d now now), <[oid := mkTodo oid s false d now now]> db).
Proof.
  intros Hs Hfree. unfold TodoService.create, save, Mongoose.new. cbn.
  destruct (String.eqb_spec s "") as [->|_]; [now contradiction Hs|].
  now rewrite Hfree.
Qed.

(** Whatever [create] is given, the collection it leaves is the one it found
    or that one with the returned record added under a free identifier. *)
Lemma create_cases now oid dto db :
  (exists e, TodoService.create now oid dto db = (Rejected e, db)) \/
  (exists t, TodoService.create now oid dto db = (Resolved t, <[oid := t]> db) /\
             db !! oid = None /\ _id t = oid /\ title t <> "" /\
             CreateTodoDto.title dto = Some (title t) /\
             description t = CreateTodoDto.description dto /\
             completed t = false /\ createdAt t = now /\ updatedAt t = now).
Proof.
  unfold TodoService.create, save, Mongoose.new. cbn.
  destruct (checkRequired (CreateTodoDto.title dto)) as [s|] eqn:Hreq; [|left; eauto].
  apply checkRequired_Some in Hreq as [Htitle Hs].
  destruct (db !! oid) eqn:Hfree; [left; eauto|].
  right. eexists. split; [reflexivity|]. cbn. auto 10.
Qed.

Lemma update_found now id oid u db t :
  ObjectId.castObjectId id = Some oid -> db !! oid = Some t ->
  TodoService.update now id u db =
  (Resolved (Some (applyUpdate now u t)), <[oid := applyUpdate now u t]> db).
Proof.
  intros Hid Ht. unfold TodoService.update, findByIdAndUpdate. now rewrite Hid, Ht.
Qed.

Lemma delete_found id oid db t :
  ObjectId.castObjectId id = Some oid -> db !! oid = Some t ->
  TodoService.delete id db = (Resolved (Some t), delete oid db).
Proof.
  intros Hid Ht. unfold TodoService.delete, findByIdAndDelete. now rewrite Hid, Ht.
Qed.

Lemma findOne_cast id oid db :
  ObjectId.castObjectId id = Some oid ->
  TodoService.findOne id db = (Resolved (db !! oid), db).
Proof. intros Hid. unfold TodoService.findOne, findById. now rewrite Hid. Qed.

Lemma findOne_unresolved id db :
  resolves id db = None -> TodoService.findOne id db = (unresolved id, db).
Proof.
  unfold resolves, unresolved, TodoService.findOne, findById.
  destruct (ObjectId.castObjectId id); [intros -> |]; reflexivity.
Qed.

Lemma update_unresolved now id u db :
  resolves id db = None -> TodoService.update now id u db = (unresolved id, db).
Proof.
  unfold resolves, unresolved, TodoService.update, findByIdAndUpdate.
  destruct (ObjectId.castObjectId id); [intros -> |]; reflexivity.
Qed.

Lemma delete_unresolved id db :
  resolves id db = None -> TodoService.delete id db = (unresolved id, db).
Proof.
  unfold resolves, unresolved, TodoService.delete, findByIdAndDelete.
  destruct (ObjectId.castObjectId id); [intros -> |]; reflexivity.
Qed.

Lemma unresolved_not_NotFound id :
  ~ failsWith "NotFoundError" (unresolved id).
Proof.
  unfold unresolved. intros [e [He Hname]].
  destruct (ObjectId.castObjectId id); [discriminate|].
  injection He as <-. discriminate.
Qed.

End StoreFacts.

(** ** The controller adds nothing to what the service does to the collection *)

Section ControllerFacts.

Import Mongoose Nest TodoController.

Implicit Types (db : gmap N Todo) (t : Todo) (id : string) (oid k : N).

Lemma snd_ofTodo (r : Promise Todo * gmap N Todo) : snd (ofTodo r) = snd r.
Proof. destruct r as [[?|?] ?]; reflexivity. Qed.

Lemma snd_ofNullable (r : Promise (option Todo) * gmap N Todo) :
  snd (ofNullable r) = snd r.
Proof. destruct r as [[[?|]|?] ?]; reflexivity. Qed.

Lemma snd_handle now oid req db :
  snd (handle now oid req db) = snd (dispatch now oid req db).
Proof. unfold handle. now destruct (dispatch now oid req db). Qed.

Lemma fst_handle now oid req db :
  fst (handle now oid req db) = reply (httpCode req) (fst (dispatch now oid req db)).
Proof. unfold handle. now destruct (dispatch now oid req db). Qed.

Lemma run_cons c calls db : run (c :: calls) db = run calls (step c db).
Proof. reflexivity. Qed.

Lemma run_app calls1 calls2 db :
  run (calls1 ++ calls2) db = run calls2 (run calls1 db).
Proof. apply fold_left_app. Qed.

(** What one request leaves in the collection, route by route. *)
Lemma step_POST now oid dto db :
  step (mkCall now oid (POST_todos dto)) db = snd (TodoService.create now oid dto db).
Proof. unfold step. rewrite snd_handle. apply snd_ofTodo. Qed.

Lemma step_GET_todos now oid db : step (mkCall now oid GET_todos) db = db.
Proof. reflexivity. Qed.

Lemma step_GET_todos_id now oid id db : step (mkCall now oid (GET_todos_id id)) db = db.
Proof.
  unfold step. rewrite snd_handle. cbn. unfold findOne. rewrite snd_ofNullable.
  unfold TodoService.findOne, findById. now destruct (ObjectId.castObjectId id).
Qed.

Lemma step_PUT now oid id u db :
  step (mkCall now oid (PUT_todos_id id u)) db = snd (TodoService.update now id u db).
Proof. unfold step. rewrite snd_handle. apply snd_ofNullable. Qed.

Lemma step_DELETE now oid id db :
  step (mkCall now oid (DELETE_todos_id id)) db = snd (TodoService.delete id db).
Proof. unfold step. rewrite snd_handle. apply snd_ofNullable. Qed.

End ControllerFacts.

(** ** C1: titles of stored records *)

Section Titles.

Import Mongoose TodoController.

Lemma applyUpdate_title now u t :
  title (applyUpdate now u t) = default (title t) (UpdateTodoDto.title u).
Proof. reflexivity. Qed.

Lemma step_titled (c : Call) (db : gmap N Todo) :
  clearsTitle (request c) = false -> titled db -> titled (step c db).
Proof.
  destruct c as [now oid req]. cbn [request]. intros Hreq Hdb.
  destruct req as [dto| |id|id u|id].
  - rewrite step_POST.
    destruct (create_cases now oid dto db) as [[e ->]|[t (-> & _ & _ & Ht & _)]];
      cbn [snd]; [exact Hdb|].
    intros k t' [[<- <-]|[_ Hk]]%lookup_insert_Some; [exact Ht | eauto].
  - exact Hdb.
  - now rewrite step_GET_todos_id.
  - rewrite step_PUT. unfold TodoService.update, findByIdAndUpdate.
    destruct (ObjectId.castObjectId id) as [k0|]; [|exact Hdb].
    destruct (db !! k0) as [t0|] eqn:Ht0; [|exact Hdb]. cbn [snd].
    intros k t' [[<- <-]|[_ Hk]]%lookup_insert_Some; [|eauto].
    rewrite applyUpdate_title. cbn in Hreq.
    destruct (UpdateTodoDto.title u) as [s|]; cbn; [|eauto].
    now destruct (String.eqb_spec s "").
  - rewrite step_DELETE. unfold TodoService.delete, findByIdAndDelete.
    destruct (ObjectId.castObjectId id) as [k0|]; [|exact Hdb].
    destruct (db !! k0) as [t0|] eqn:Ht0; [|exact Hdb]. cbn [snd].
    intros k t' [_ Hk]%lookup_delete_Some. eauto.
Qed.

(** C1, as the code has it: from a collection without empty titles, every
    sequence of requests in which no update supplies the empty string as
    title leaves a collection without empty titles. *)
Theorem C1_titles_stay_non_empty (calls : list Call) (db : gmap N Todo) :
  Forall (fun c => clearsTitle (request c) = false) calls ->
  titled db ->
  titled (run calls db).
Proof.
  intros Hcalls. revert db.
  induction Hcalls as [|c calls Hc _ IH]; intros db Hdb; [exact Hdb|].
  rewrite run_cons. apply IH. now apply step_titled.
Qed.

Lemma titled_empty : titled ∅.
Proof. intros k t Hk. now rewrite lookup_empty in Hk. Qed.

Lemma C1_titles_stay_non_empty_witness :
  titled (run [mkCall 1 sampleId (POST_todos buyMilk);
               mkCall 2 0 (PUT_todos_id (ObjectId.toHexString sampleId) setCompleted);
               mkCall 3 0 (DELETE_todos_id (ObjectId.toHexString sampleId))] ∅).
Proof.
  apply C1_titles_stay_non_empty.
  - repeat constructor.
  - exact titled_empty.
Defined.

(** C1 as the specification words it fails: an update that supplies the empty
    string as title is applied, and the stored record then has an empty
    title. *)
Lemma C1_empty_title_counterexample :
  run [mkCall 1 sampleId (POST_todos buyMilk);
       mkCall 2 0 (PUT_todos_id (ObjectId.toHexString sampleId) setEmptyTitle)] ∅
    !! sampleId
  = Some (mkTodo sampleId "" false None 1 2)
  /\ ~ titled (run [mkCall 1 sampleId (POST_todos buyMilk);
                    mkCall 2 0 (PUT_todos_id (ObjectId.toHexString sampleId) setEmptyTitle)] ∅).
Proof.
  assert (Hstored :
    run [mkCall 1 sampleId (POST_todos buyMilk);
         mkCall 2 0 (PUT_todos_id (ObjectId.toHexString sampleId) setEmptyTitle)] ∅
      !! sampleId
    = Some (mkTodo sampleId "" false None 1 2)) by (vm_compute; reflexivity).
  split; [exact Hstored|].
  intros Htitled. now apply (Htitled _ _ Hstored).
Qed.

End Titles.

(** ** C2, C9, C6: identifiers that resolve to nothing *)

Section NotFound.

Import Mongoose Nest TodoController.

(** C2, as the code has it: on an identifier that does not resolve to a
    stored record, [findOne], [update] and [delete] settle alike and leave the
    collection as it was; a well-formed identifier gives [null], a malformed
    one a cast error; none of them fails with a NotFoundError. *)
Theorem C2_unresolved_identifier (now : Z) (id : string) (u : UpdateTodoDto.t)
    (db : gmap N Todo) :
  resolves id db = None ->
  TodoService.findOne id db = (unresolved id, db) /\
  TodoService.update now id u db = (unresolved id, db) /\
  TodoService.delete id db = (unresolved id, db) /\
  (forall oid, ObjectId.castObjectId id = Some oid -> unresolved id = Resolved None) /\
  (ObjectId.castObjectId id = None -> unresolved id = Rejected (CastError "_id" id)) /\
  ~ failsWith "NotFoundError" (unresolved id).
Proof.
  intros Hid. repeat split.
  - now apply findOne_unresolved.
  - now apply update_unresolved.
  - now apply delete_unresolved.
  - intros oid Hcast. unfold unresolved. now rewrite Hcast.
  - intros Hcast. unfold unresolved. now rewrite Hcast.
  - apply unresolved_not_NotFound.
Qed.

Lemma C2_unresolved_identifier_witness :
  TodoService.findOne "not-an-id" ∅ = (unresolved "not-an-id", ∅) /\
  TodoService.update 7 "not-an-id" setCompleted ∅ = (unresolved "not-an-id", ∅) /\
  TodoService.delete "not-an-id" ∅ = (unresolved "not-an-id", ∅) /\
  (forall oid, ObjectId.castObjectId "not-an-id" = Some oid ->
               unresolved "not-an-id" = Resolved None) /\
  (ObjectId.castObjectId "not-an-id" = None ->
   unresolved "not-an-id" = Rejected (CastError "_id" "not-an-id")) /\
  ~ failsWith "NotFoundError" (unresolved "not-an-id").
Proof. apply (C2_unresolved_identifier 7 "not-an-id" setCompleted ∅). reflexivity. Defined.

(** C2 as the specification words it fails: a never-issued identifier makes
    [findOne], [update] and [delete] resolve with [null], and a malformed one
    makes them reject with a CastError. *)
Lemma C2_not_found_counterexample :
  resolves "507f1f77bcf86cd799439011" ∅ = None /\
  fst (TodoService.findOne "507f1f77bcf86cd799439011" ∅) = Resolved None /\
  fst (TodoService.update 7 "507f1f77bcf86cd799439011" setCompleted ∅) = Resolved None /\
  fst (TodoService.delete "507f1f77bcf86cd799439011" ∅) = Resolved None /\
  ~ failsWith "NotFoundError" (fst (TodoService.findOne "507f1f77bcf86cd799439011" ∅)) /\
  resolves "not-an-id" ∅ = None /\
  fst (TodoService.findOne "not-an-id" ∅) = Rejected (CastError "_id" "not-an-id") /\
  ~ failsWith "NotFoundError" (fst (TodoService.findOne "not-an-id" ∅)).
Proof.
  repeat split; try reflexivity.
  - intros [e [He _]]. discriminate He.
  - intros [e [He Hname]]. injection He as <-. discriminate Hname.
Qed.

(** C9: on a well-formed identifier that no stored record has, the three
    service calls return [null] without raising, the handlers return that
    [null], and the response is 200 with an empty body; the collection is
    left as it was. *)
Theorem C9_null_passes_through (now : Z) (fresh : N) (id : string) (oid : N)
    (u : UpdateTodoDto.t) (db : gmap N Todo) :
  ObjectId.castObjectId id = Some oid ->
  db !! oid = None ->
  (TodoService.findOne id db = (Resolved None, db) /\
   TodoService.update now id u db = (Resolved None, db) /\
   TodoService.delete id db = (Resolved None, db)) /\
  (TodoController.findOne id db = (Resolved VNull, db) /\
   TodoController.update now id u db = (Resolved VNull, db) /\
   TodoController.delete id db = (Resolved VNull, db)) /\
  (handle now fresh (GET_todos_id id) db = (mkResponse 200 BodyEmpty, db) /\
   handle now fresh (PUT_todos_id id u) db = (mkResponse 200 BodyEmpty, db) /\
   handle now fresh (DELETE_todos_id id) db = (mkResponse 200 BodyEmpty, db)).
Proof.
  intros Hcast Hnone.
  assert (Hf : TodoService.findOne id db = (Resolved None, db)).
  { rewrite (findOne_cast _ _ _ Hcast). now rewrite Hnone. }
  assert (Hu : TodoService.update now id u db = (Resolved None, db)).
  { unfold TodoService.update, findByIdAndUpdate. now rewrite Hcast, Hnone. }
  assert (Hd : TodoService.delete id db = (Resolved None, db)).
  { unfold TodoService.delete, findByIdAndDelete. now rewrite Hcast, Hnone. }
  unfold handle, dispatch, findOne, update, delete.
  rewrite Hf, Hu, Hd. cbn. repeat split.
Qed.

Lemma C9_null_passes_through_witness :
  handle 7 0 (GET_todos_id "507f1f77bcf86cd799439011") ∅ = (mkResponse 200 BodyEmpty, ∅).
Proof.
  apply (C9_null_passes_through 7 0 "507f1f77bcf86cd799439011" sampleId setCompleted ∅);
    reflexivity.
Defined.

(** C6, as the code has it: [delete] of a stored record removes it and
    returns it as it was stored; a [findOne] of the same identifier afterwards
    finds nothing and returns [null], which is not a NotFoundError. *)
Theorem C6_delete_then_findOne (id : string) (oid : N) (T : Todo) (db : gmap N Todo) :
  ObjectId.castObjectId id = Some oid ->
  db !! oid = Some T ->
  TodoService.delete id db = (Resolved (Some T), base.delete oid db) /\
  base.delete oid db !! oid = None /\
  TodoService.findOne id (base.delete oid db) = (Resolved None, base.delete oid db) /\
  ~ failsWith "NotFoundError" (fst (TodoService.findOne id (base.delete oid db))).
Proof.
  intros Hcast HT.
  assert (Hgone : base.delete oid db !! oid = None) by apply lookup_delete_eq.
  assert (Hf : TodoService.findOne id (base.delete oid db) = (Resolved None, base.delete oid db)).
  { rewrite (findOne_cast _ _ _ Hcast). now rewrite Hgone. }
  repeat split; [now apply delete_found | exact Hgone | exact Hf |].
  rewrite Hf. intros [e [He _]]. discriminate He.
Qed.

Lemma C6_delete_then_findOne_witness :
  TodoService.delete "507f1f77bcf86cd799439011"
    {[ sampleId := mkTodo sampleId "Buy groceries" false (Some "Milk and eggs") 1 1 ]}
  = (Resolved (Some (mkTodo sampleId "Buy groceries" false (Some "Milk and eggs") 1 1)),
     base.delete sampleId
       {[ sampleId := mkTodo sampleId "Buy groceries" false (Some "Milk and eggs") 1 1 ]}).
Proof.
  apply (C6_delete_then_findOne "507f1f77bcf86cd799439011" sampleId
           (mkTodo sampleId "Buy groceries" false (Some "Milk and eggs") 1 1)
           {[ sampleId := mkTodo sampleId "Buy groceries" false (Some "Milk and eggs") 1 1 ]});
    reflexivity.
Defined.

(** C6 as the specification words it fails: after a successful [delete], the
    [findOne] of the same identifier resolves with [null]; it does not fail. *)
Lemma C6_not_found_counterexample :
  fst (TodoService.delete "507f1f77bcf86cd799439011"
         (snd (TodoService.create 1 sampleId buyGroceries ∅)))
  = Resolved (Some (mkTodo sampleId "Buy groceries" false (Some "Milk and eggs") 1 1)) /\
  fst (TodoService.findOne "507f1f77bcf86cd799439011"
         (snd (TodoService.delete "507f1f77bcf86cd799439011"
                 (snd (TodoService.create 1 sampleId buyGroceries ∅)))))
  = Resolved None /\
  ~ failsWith "NotFoundError"
      (fst (TodoService.findOne "507f1f77bcf86cd799439011"
              (snd (TodoService.delete "507f1f77bcf86cd799439011"
                      (snd (TodoService.create 1 sampleId buyGroceries ∅)))))).
Proof.
  assert (Hf :
    fst (TodoService.findOne "507f1f77bcf86cd799439011"
           (snd (TodoService.delete "507f1f77bcf86cd799439011"
                   (snd (TodoService.create 1 sampleId buyGroceries ∅)))))
    = Resolved None) by (vm_compute; reflexivity).
  split; [vm_compute; reflexivity|]. split; [exact Hf|].
  rewrite Hf. intros [e [He _]]. discriminate He.
Qed.

End NotFound.

(** ** C3: status codes *)

Section Http.

Import Mongoose Nest TodoController.

Lemma fst_ofTodo_Resolved (r : Promise Todo * gmap N Todo) (t : Todo) :
  fst r = Resolved t -> fst (ofTodo r) = Resolved (VTodo t).
Proof. destruct r as [[?|?] ?]; cbn; congruence. Qed.

Lemma fst_ofTodo_Rejected (r : Promise Todo * gmap N Todo) (e : Error) :
  fst r = Rejected e -> fst (ofTodo r) = Rejected e.
Proof. destruct r as [[?|?] ?]; cbn; congruence. Qed.

Lemma fst_ofNullable_Some (r : Promise (option Todo) * gmap N Todo) (t : Todo) :
  fst r = Resolved (Some t) -> fst (ofNullable r) = Resolved (VTodo t).
Proof. destruct r as [[[?|]|?] ?]; cbn; congruence. Qed.

(** C3, as the code has it: one translation serves every error.  Whatever a
    handler rejects with, a ValidationError of [create] included, the response
    is 500 with the body [{statusCode: 500, message: "Internal server
    error"}].  There is no NotFoundError to translate: a get, update or delete
    of an identifier that resolves to no record is answered 200 with an empty
    body when the identifier is well formed, and 500 when it is malformed.  A
    resolved [create] is answered 201 with the record, a [delete] that
    removed a record 200 with that record. *)
Theorem C3_http_translation (now : Z) (oid : N) (req : Request) (db : gmap N Todo) :
  (forall e, fst (dispatch now oid req db) = Rejected e ->
     fst (handle now oid req db) = mkResponse 500 (BodyError 500 "Internal server error")) /\
  (forall dto e, req = POST_todos dto ->
     fst (TodoService.create now oid dto db) = Rejected e ->
     fst (handle now oid req db) = mkResponse 500 (BodyError 500 "Internal server error")) /\
  (forall dto t, req = POST_todos dto ->
     fst (TodoService.create now oid dto db) = Resolved t ->
     fst (handle now oid req db) = mkResponse 201 (BodyTodo t)) /\
  (forall id t, req = DELETE_todos_id id ->
     fst (TodoService.delete id db) = Resolved (Some t) ->
     fst (handle now oid req db) = mkResponse 200 (BodyTodo t)) /\
  (forall id,
     req = GET_todos_id id \/ (exists u, req = PUT_todos_id id u) \/
     req = DELETE_todos_id id ->
     resolves id db = None ->
     fst (handle now oid req db)
     = match ObjectId.castObjectId id with
       | Some _ => mkResponse 200 BodyEmpty
       | None => mkResponse 500 (BodyError 500 "Internal server error")
       end).
Proof.
  rewrite fst_handle. repeat split.
  - intros e ->. reflexivity.
  - intros dto e -> He. cbn [dispatch]. unfold create.
    now rewrite (fst_ofTodo_Rejected _ _ He).
  - intros dto t -> Ht. cbn [dispatch]. unfold create.
    now rewrite (fst_ofTodo_Resolved _ _ Ht).
  - intros id t -> Ht. cbn [dispatch]. unfold delete.
    now rewrite (fst_ofNullable_Some _ _ Ht).
  - intros id Hreq Hid.
    assert (Hsettled : fst (dispatch now oid req db) = fst (ofNullable (unresolved id, db))).
    { destruct Hreq as [-> | [[u ->] | ->]]; cbn [dispatch];
        unfold findOne, update, delete.
      - now rewrite (findOne_unresolved _ _ Hid).
      - now rewrite (update_unresolved now _ u _ Hid).
      - now rewrite (delete_unresolved _ _ Hid). }
    rewrite Hsettled. unfold unresolved.
    destruct (ObjectId.castObjectId id);
      destruct Hreq as [-> | [[u ->] | ->]]; reflexivity.
Qed.

Lemma C3_http_translation_witness :
  fst (handle 1 sampleId (POST_todos buyMilk) ∅)
  = mkResponse 201 (BodyTodo (mkTodo sampleId "Buy milk" false None 1 1)) /\
  fst (handle 1 sampleId (POST_todos (CreateTodoDto.mk None None)) ∅)
  = mkResponse 500 (BodyError 500 "Internal server error") /\
  fst (handle 1 sampleId (GET_todos_id "507f1f77bcf86cd799439011") ∅)
  = mkResponse 200 BodyEmpty.
Proof.
  split; [|split].
  - destruct (C3_http_translation 1 sampleId (POST_todos buyMilk) ∅)
      as (_ & _ & Hcreated & _).
    apply (Hcreated buyMilk); reflexivity.
  - destruct (C3_http_translation 1 sampleId (POST_todos (CreateTodoDto.mk None None)) ∅)
      as (_ & Hrejected & _).
    apply (Hrejected (CreateTodoDto.mk None None) (ValidationError "title" "required"));
      reflexivity.
  - destruct (C3_http_translation 1 sampleId (GET_todos_id "507f1f77bcf86cd799439011") ∅)
      as (_ & _ & _ & _ & Hmissing).
    apply (Hmissing "507f1f77bcf86cd799439011"); [left|]; reflexivity.
Defined.

(** C3 as the specification words it fails: the ValidationError of a [create]
    with an empty title is answered 500, not 400; a missing record is answered
    200 with an empty body, and a malformed identifier 500, not 404. *)
Lemma C3_status_counterexample :
  failsWith "ValidationError"
    (fst (TodoService.create 1 sampleId (CreateTodoDto.mk (Some "") (Some "x")) ∅)) /\
  status (fst (handle 1 sampleId (POST_todos (CreateTodoDto.mk (Some "") (Some "x"))) ∅))
  = 500%Z /\
  fst (handle 1 sampleId (GET_todos_id "507f1f77bcf86cd799439011") ∅)
  = mkResponse 200 BodyEmpty /\
  status (fst (handle 1 sampleId (GET_todos_id "not-an-id") ∅)) = 500%Z.
Proof.
  repeat split.
  exists (ValidationError "title" "required"). split; reflexivity.
Qed.

End Http.

(** ** C7, C4: create *)

Section Create.

Import Mongoose.

(** C7: [create] fails with a ValidationError, and stores nothing, whenever
    the title is missing or the empty string; with a non-empty title and no
    description it succeeds, and the stored record has no description. *)
Theorem C7_create_validation (now : Z) (oid : N) (db : gmap N Todo) :
  (forall title d, title = None \/ title = Some "" ->
     TodoService.create now oid (CreateTodoDto.mk title d) db
     = (Rejected (ValidationError "title" "required"), db) /\
     failsWith "ValidationError"
       (fst (TodoService.create now oid (CreateTodoDto.mk title d) db))) /\
  (forall s, s <> "" -> db !! oid = None ->
     exists t,
       TodoService.create now oid (CreateTodoDto.mk (Some s) None) db
       = (Resolved t, <[oid := t]> db) /\
       title t = s /\ description t = None).
Proof.
  split.
  - intros title d Htitle.
    assert (Hc : TodoService.create now oid (CreateTodoDto.mk title d) db
                 = (Rejected (ValidationError "title" "required"), db)).
    { unfold TodoService.create, save, Mongoose.new. cbn.
      now apply checkRequired_None in Htitle as ->. }
    split; [exact Hc|]. rewrite Hc. eexists. split; reflexivity.
  - intros s Hs Hfree. eexists. split; [now apply create_ok|]. split; reflexivity.
Qed.

Lemma C7_create_validation_witness :
  (TodoService.create 1 sampleId (CreateTodoDto.mk (Some "") (Some "x")) ∅
   = (Rejected (ValidationError "title" "required"), ∅) /\
   failsWith "ValidationError"
     (fst (TodoService.create 1 sampleId (CreateTodoDto.mk (Some "") (Some "x")) ∅))) /\
  (exists t,
     TodoService.create 1 sampleId (CreateTodoDto.mk (Some "Buy milk") None) ∅
     = (Resolved t, <[sampleId := t]> ∅) /\
     title t = "Buy milk" /\ description t = None).
Proof.
  destruct (C7_create_validation 1 sampleId ∅) as [Hreject Haccept]. split.
  - apply Hreject. right. reflexivity.
  - apply Haccept; [discriminate | reflexivity].
Defined.

(** C4: for every non-empty title and every description, given or not, the
    record [create] returns is found again by [findOne] under the printed form
    of its identifier; it has that title and that description, is not
    completed, and its two timestamps are equal. *)
Theorem C4_create_findOne_roundtrip (now : Z) (oid : N) (s : string)
    (d : option string) (db : gmap N Todo) :
  s <> "" ->
  newIdentifier oid db ->
  exists t db',
    TodoService.create now oid (CreateTodoDto.mk (Some s) d) db = (Resolved t, db') /\
    TodoService.findOne (ObjectId.toHexString (_id t)) db' = (Resolved (Some t), db') /\
    title t = s /\ description t = d /\ completed t = false /\
    createdAt t = updatedAt t.
Proof.
  intros Hs [Hbound Hfree].
  exists (mkTodo oid s false d now now), (<[oid := mkTodo oid s false d now now]> db).
  split; [now apply create_ok|]. split; [|repeat split].
  cbn [_id]. rewrite (findOne_cast _ oid) by now apply castObjectId_toHexString.
  now rewrite lookup_insert_eq.
Qed.

Lemma C4_create_findOne_roundtrip_witness :
  exists t db',
    TodoService.create 1 sampleId buyGroceries ∅ = (Resolved t, db') /\
    TodoService.findOne (ObjectId.toHexString (_id t)) db' = (Resolved (Some t), db') /\
    title t = "Buy groceries" /\ description t = Some "Milk and eggs" /\
    completed t = false /\ createdAt t = updatedAt t.
Proof.
  apply (C4_create_findOne_roundtrip 1 sampleId "Buy groceries" (Some "Milk and eggs") ∅).
  - discriminate.
  - split; reflexivity.
Defined.

End Create.

(** ** C5: partial update *)

Section Update.

Import Mongoose TodoController.

(** Under a clock that does not run backwards, no stored record is stamped
    later than the present: if every request so far was served no later than
    [now], every [updatedAt] in the collection is at most [now]. *)
Lemma step_updatedAt_le (c : Call) (now : Z) (db : gmap N Todo) :
  (at_time c <= now)%Z ->
  (forall k t, db !! k = Some t -> (updatedAt t <= now)%Z) ->
  forall k t, step c db !! k = Some t -> (updatedAt t <= now)%Z.
Proof.
  destruct c as [at_ oid req]. cbn [at_time]. intros Hat Hdb.
  destruct req as [dto| |id|id u|id].
  - rewrite step_POST.
    destruct (create_cases at_ oid dto db)
      as [[e ->]|[t (-> & _ & _ & _ & _ & _ & _ & _ & Hu)]]; cbn [snd]; [exact Hdb|].
    intros k t' [[<- <-]|[_ Hk]]%lookup_insert_Some; [lia | eauto].
  - exact Hdb.
  - now rewrite step_GET_todos_id.
  - rewrite step_PUT. unfold TodoService.update, findByIdAndUpdate.
    destruct (ObjectId.castObjectId id) as [k0|]; [|exact Hdb].
    destruct (db !! k0) as [t0|] eqn:Ht0; [|exact Hdb]. cbn [snd].
    intros k t' [[<- <-]|[_ Hk]]%lookup_insert_Some; [exact Hat | eauto].
  - rewrite step_DELETE. unfold TodoService.delete, findByIdAndDelete.
    destruct (ObjectId.castObjectId id) as [k0|]; [|exact Hdb].
    destruct (db !! k0) as [t0|] eqn:Ht0; [|exact Hdb]. cbn [snd].
    intros k t' [_ Hk]%lookup_delete_Some. eauto.
Qed.

Lemma run_updatedAt_le (calls : list Call) (now : Z) :
  Forall (fun c => (at_time c <= now)%Z) calls ->
  forall k t, run calls ∅ !! k = Some t -> (updatedAt t <= now)%Z.
Proof.
  intros Hcalls.
  enough (Hgen : forall db, (forall k t, db !! k = Some t -> (updatedAt t <= now)%Z) ->
                 forall k t, run calls db !! k = Some t -> (updatedAt t <= now)%Z).
  { apply Hgen. intros k t Hk. now rewrite lookup_empty in Hk. }
  induction Hcalls as [|c calls Hc _ IH]; intros db Hdb; [exact Hdb|].
  rewrite run_cons. apply IH. now apply step_updatedAt_le.
Qed.

(** C5: an update of a stored record T sets each of title, description and
    completed that the body has to the value it has there and keeps each one
    it has not; it keeps the identifier and [createdAt]; it stamps [updatedAt]
    with the time of the call, which is not before T's [updatedAt] when the
    clock has not run backwards; it returns the record as it is stored after
    the update. *)
Theorem C5_partial_update (now : Z) (id : string) (oid : N) (T : Todo)
    (u : UpdateTodoDto.t) (db : gmap N Todo) :
  ObjectId.castObjectId id = Some oid ->
  db !! oid = Some T ->
  (updatedAt T <= now)%Z ->
  exists T',
    TodoService.update now id u db = (Resolved (Some T'), <[oid := T']> db) /\
    TodoService.findOne id (<[oid := T']> db) = (Resolved (Some T'), <[oid := T']> db) /\
    title T' = match UpdateTodoDto.title u with Some s => s | None => title T end /\
    completed T' = match UpdateTodoDto.completed u with Some b => b | None => completed T end /\
    description T' = match UpdateTodoDto.description u with
                     | Some s => Some s
                     | None => description T
                     end /\
    _id T' = _id T /\
    createdAt T' = createdAt T /\
    updatedAt T' = now /\
    (updatedAt T <= updatedAt T')%Z.
Proof.
  intros Hcast HT Hclock. exists (applyUpdate now u T).
  split; [now apply update_found|].
  split; [rewrite (findOne_cast _ _ _ Hcast); now rewrite lookup_insert_eq|].
  cbn. repeat split. exact Hclock.
Qed.

Lemma C5_partial_update_witness :
  exists T',
    TodoService.update 2 "507f1f77bcf86cd799439011" setCompleted
      {[ sampleId := mkTodo sampleId "Buy groceries" false (Some "Milk and eggs") 1 1 ]}
    = (Resolved (Some T'),
       <[sampleId := T']>
         {[ sampleId := mkTodo sampleId "Buy groceries" false (Some "Milk and eggs") 1 1 ]}) /\
    T' = mkTodo sampleId "Buy groceries" true (Some "Milk and eggs") 1 2.
Proof.
  destruct (C5_partial_update 2 "507f1f77bcf86cd799439011" sampleId
              (mkTodo sampleId "Buy groceries" false (Some "Milk and eggs") 1 1)
              setCompleted
              {[ sampleId := mkTodo sampleId "Buy groceries" false (Some "Milk and eggs") 1 1 ]})
    as (T' & Hupdate & _ & Htitle & Hcompleted & Hdescription & Hid & Hcreated & Hupdated & _).
  - reflexivity.
  - reflexivity.
  - cbn. lia.
  - exists T'. split; [exact Hupdate|].
    destruct T'. cbn in *. congruence.
Defined.

End Update.

(** ** C10: records a call is not keyed to *)

Section Frame.

Import Mongoose.

(** C10: [update] and [delete] leave the record under every other identifier
    as it was.  [create] leaves every record that was there as it was; given
    a non-empty title and a free identifier it succeeds, and the collection
    then has exactly one record more, the returned one, under that
    identifier; whenever it succeeds that is so, and when it fails nothing is
    added.  The two reads change nothing. *)
Theorem C10_frame (now : Z) (oid : N) (id : string) (u : UpdateTodoDto.t)
    (dto : CreateTodoDto.t) (db : gmap N Todo) :
  (forall k, ObjectId.castObjectId id <> Some k ->
     snd (TodoService.update now id u db) !! k = db !! k /\
     snd (TodoService.delete id db) !! k = db !! k) /\
  (forall k t, db !! k = Some t ->
     snd (TodoService.create now oid dto db) !! k = Some t) /\
  (forall t, fst (TodoService.create now oid dto db) = Resolved t ->
     db !! oid = None /\
     snd (TodoService.create now oid dto db) = <[oid := t]> db /\
     size (snd (TodoService.create now oid dto db)) = S (size db)) /\
  snd (TodoService.findOne id db) = db /\
  snd (TodoService.findAll db) = db /\
  (forall s, CreateTodoDto.title dto = Some s -> s <> "" -> db !! oid = None ->
     exists t,
       TodoService.create now oid dto db = (Resolved t, <[oid := t]> db) /\
       <[oid := t]> db !! oid = Some t /\
       (forall k, k <> oid -> <[oid := t]> db !! k = db !! k) /\
       size (<[oid := t]> db) = S (size db)) /\
  (forall e, fst (TodoService.create now oid dto db) = Rejected e ->
     snd (TodoService.create now oid dto db) = db).
Proof.
  split; [|split; [|split; [|split; [|split; [|split]]]]].
  - intros k Hk.
    unfold TodoService.update, TodoService.delete, findByIdAndUpdate, findByIdAndDelete.
    destruct (ObjectId.castObjectId id) as [k0|]; [|now split].
    assert (k0 <> k) by congruence.
    destruct (db !! k0); cbn [snd]; [|now split].
    split; [now apply lookup_insert_ne | now apply lookup_delete_ne].
  - intros k t Hk.
    destruct (create_cases now oid dto db) as [[e ->]|[t' (-> & Hfree & _)]];
      cbn [snd]; [exact Hk|].
    rewrite lookup_insert_ne; [exact Hk | congruence].
  - intros t Ht.
    destruct (create_cases now oid dto db) as [[e He]|[t' (He & Hfree & _)]];
      rewrite He in Ht |- *; cbn [fst snd] in *; [discriminate|].
    injection Ht as ->.
    repeat split; [exact Hfree | now apply map_size_insert_None].
  - unfold TodoService.findOne, findById. now destruct (ObjectId.castObjectId id).
  - reflexivity.
  - intros s Htitle Hs Hfree. destruct dto as [ti d]. cbn in Htitle. subst ti.
    exists (mkTodo oid s false d now now).
    split; [now apply create_ok|].
    split; [apply lookup_insert_eq|].
    split; [intros k Hk; now apply lookup_insert_ne|].
    now apply map_size_insert_None.
  - intros e He.
    destruct (create_cases now oid dto db) as [[e' He']|[t' (He' & _)]];
      rewrite He' in He |- *; cbn [fst snd] in *; [reflexivity | discriminate].
Qed.

Lemma C10_frame_witness :
  snd (TodoService.update 5 "507f1f77bcf86cd799439011" setEmptyTitle twoRecords) !! 7%N
  = Some (mkTodo 7 "Buy milk" false None 1 1) /\
  snd (TodoService.delete "507f1f77bcf86cd799439011" twoRecords) !! 7%N
  = Some (mkTodo 7 "Buy milk" false None 1 1) /\
  (exists t,
     TodoService.create 5 9 buyGroceries twoRecords
     = (Resolved t, <[ 9%N := t ]> twoRecords) /\
     size (<[ 9%N := t ]> twoRecords) = 3%nat).
Proof.
  destruct (C10_frame 5 9 "507f1f77bcf86cd799439011" setEmptyTitle buyGroceries twoRecords)
    as (Hkeyed & _ & _ & _ & _ & Hcreates & _).
  destruct (Hkeyed 7%N) as [Hupdate Hdelete]; [discriminate|].
  split; [|split].
  - rewrite Hupdate. reflexivity.
  - rewrite Hdelete. reflexivity.
  - destruct (Hcreates "Buy groceries") as (t & Hcreate & _ & _ & Hsize);
      [reflexivity | discriminate | reflexivity |].
    exists t. split; [exact Hcreate|]. rewrite Hsize. reflexivity.
Defined.

End Frame.

(** ** C8: the list fetch after a mutating action *)

Section Refetch.

Import Page.

Lemma issued_fetchTodos_start (st : State) :
  issued (snd (fetchTodos_start st)) = [listCall].
Proof. reflexivity. Qed.

Lemma refetchesAfter_pair (c : HttpCall) : refetchesAfter c [c; listCall].
Proof. exists [], [listCall]. split; [reflexivity | now left]. Qed.

Lemma not_refetchesAfter_single (c c' : HttpCall) : ~ refetchesAfter c [c'].
Proof.
  intros (before & after & Heq & Hin).
  destruct before as [|b before]; cbn in Heq.
  - injection Heq as _ <-. contradiction.
  - injection Heq as _ Heq. now destruct before.
Qed.

(** C8, as the code has it: an action that passes its guard issues its call,
    and once a response has arrived, [toggleComplete], [saveEdit] and
    [deleteTodo] issue the full list fetch whatever the status, while
    [createTodo] issues it when the status is 2xx and not otherwise; when the
    call throws, no list fetch is issued. *)
Theorem C8_refetch_on_response (a : Action) (st : State) :
  proceeds a st = true ->
  (forall status, a <> Create ->
     issued (snd (perform a (Response status) st)) = [mutation a st; listCall] /\
     refetchesAfter (mutation a st) (issued (snd (perform a (Response status) st)))) /\
  (forall status, a = Create ->
     issued (snd (perform a (Response status) st))
     = if ok status then [mutation a st; listCall] else [mutation a st]) /\
  issued (snd (perform a Threw st)) = [mutation a st].
Proof.
  intros Hguard. destruct a as [|id completed|id|id]; cbn in Hguard |- *.
  - apply negb_true_iff in Hguard. unfold createTodo. rewrite Hguard.
    split; [|split].
    + intros status Hne. now contradiction Hne.
    + intros status _. now destruct (ok status).
    + reflexivity.
  - split; [|split]; [|discriminate|reflexivity].
    intros status _. split; [reflexivity | apply refetchesAfter_pair].
  - apply negb_true_iff in Hguard. unfold saveEdit. rewrite Hguard.
    split; [|split]; [|discriminate|reflexivity].
    intros status _. split; [reflexivity | apply refetchesAfter_pair].
  - split; [|split]; [|discriminate|reflexivity].
    intros status _. split; [reflexivity | apply refetchesAfter_pair].
Qed.

Lemma C8_refetch_on_response_witness :
  issued (snd (perform (Toggle "507f1f77bcf86cd799439011" false) (Response 500)
                 (mkState (Todos []) "" "" None "" "" false)))
  = [toggleCall "507f1f77bcf86cd799439011" false; listCall].
Proof.
  destruct (C8_refetch_on_response (Toggle "507f1f77bcf86cd799439011" false)
              (mkState (Todos []) "" "" None "" "" false)) as (Hresponse & _).
  - reflexivity.
  - apply (Hresponse 500%Z). discriminate.
Defined.

(** C8 as the specification words it fails: [createTodo] whose call is
    answered 500 issues that call and no list fetch. *)
Lemma C8_create_counterexample :
  proceeds Create (mkState (Todos []) "Buy milk" "" None "" "" false) = true /\
  issued (snd (perform Create (Response 500) (mkState (Todos []) "Buy milk" "" None "" "" false)))
  = [createCall (mkState (Todos []) "Buy milk" "" None "" "" false)] /\
  ~ refetchesAfter (mutation Create (mkState (Todos []) "Buy milk" "" None "" "" false))
      (issued (snd (perform Create (Response 500)
                      (mkState (Todos []) "Buy milk" "" None "" "" false)))).
Proof.
  split; [reflexivity|]. split; [reflexivity|].
  apply not_refetchesAfter_single.
Qed.

End Refetch.

(** ** The end-to-end scenario of the specification, run on the model *)

Section Scenario.

Import Mongoose TodoController.

(** Create "Buy groceries"; the list is exactly that record; mark it
    completed; delete it; the list is empty.  An identifier written in upper
    case reaches the same record. *)
Example end_to_end_scenario :
  fst (TodoService.findAll (run [mkCall 1 sampleId (POST_todos buyGroceries)] ∅))
  = Resolved [mkTodo sampleId "Buy groceries" false (Some "Milk and eggs") 1 1] /\
  fst (TodoService.update 2 "507F1F77BCF86CD799439011" setCompleted
         (run [mkCall 1 sampleId (POST_todos buyGroceries)] ∅))
  = Resolved (Some (mkTodo sampleId "Buy groceries" true (Some "Milk and eggs") 1 2)) /\
  fst (TodoService.delete "507f1f77bcf86cd799439011"
         (run [mkCall 1 sampleId (POST_todos buyGroceries);
               mkCall 2 0 (PUT_todos_id "507f1f77bcf86cd799439011" setCompleted)] ∅))
  = Resolved (Some (mkTodo sampleId "Buy groceries" true (Some "Milk and eggs") 1 2)) /\
  fst (TodoService.findAll
         (run [mkCall 1 sampleId (POST_todos buyGroceries);
               mkCall 2 0 (PUT_todos_id "507f1f77bcf86cd799439011" setCompleted);
               mkCall 3 0 (DELETE_todos_id "507f1f77bcf86cd799439011")] ∅))
  = Resolved [].
Proof. repeat split; vm_compute; reflexivity. Qed.

End Scenario.

(** * Further properties of the code *)

(** ** The list of all records *)

Section Listing.

Import Mongoose Nest TodoController.

(** X1: How the list follows the collection.  After a [create] that
    succeeds, [findAll] lists the returned record and the records listed
    before, no more and no less; after a [delete] that removed a record, the
    list before was that record and the records listed now; after an [update]
    of a stored record, the returned record has taken the place of the
    stored one and the rest of the list is as it was.  The lists are compared
    up to their order, which the code does not fix. *)
Theorem findAll_follows_the_mutations (now : Z) (oid : N) (dto : CreateTodoDto.t)
    (id : string) (u : UpdateTodoDto.t) (db : gmap N Todo) (before : list Todo) :
  fst (TodoService.findAll db) = Resolved before ->
  (forall t, fst (TodoService.create now oid dto db) = Resolved t ->
     exists after,
       fst (TodoService.findAll (snd (TodoService.create now oid dto db)))
       = Resolved after /\
       after ≡ₚ t :: before) /\
  (forall t, fst (TodoService.delete id db) = Resolved (Some t) ->
     exists after,
       fst (TodoService.findAll (snd (TodoService.delete id db))) = Resolved after /\
       before ≡ₚ t :: after) /\
  (forall t', fst (TodoService.update now id u db) = Resolved (Some t') ->
     exists t rest after,
       resolves id db = Some t /\
       before ≡ₚ t :: rest /\
       fst (TodoService.findAll (snd (TodoService.update now id u db)))
       = Resolved after /\
       after ≡ₚ t' :: rest).
Proof.
  intros [= <-]. split; [|split].
  - intros t Ht.
    destruct (create_cases now oid dto db) as [[e He]|[t0 (He & Hfree & _)]];
      rewrite He in Ht |- *; cbn [fst snd] in *; [discriminate|].
    injection Ht as ->. eexists. split; [reflexivity|].
    now rewrite map_to_list_insert.
  - intros t. unfold TodoService.delete, findByIdAndDelete.
    destruct (ObjectId.castObjectId id) as [k|]; [|discriminate].
    destruct (db !! k) as [t0|] eqn:Hk; cbn [fst snd]; [|discriminate].
    intros [= ->]. eexists. split; [reflexivity|].
    now rewrite <- (map_to_list_delete db k t Hk).
  - intros t'. unfold TodoService.update, findByIdAndUpdate, resolves.
    destruct (ObjectId.castObjectId id) as [k|]; [|discriminate].
    destruct (db !! k) as [t0|] eqn:Hk; cbn [fst snd]; [|discriminate].
    intros [= <-].
    exists t0, (snd <$> map_to_list (base.delete k db)). eexists.
    split; [reflexivity|]. split; [now rewrite <- (map_to_list_delete db k t0 Hk)|].
    split; [reflexivity|].
    rewrite <- insert_delete_eq.
    rewrite map_to_list_insert by apply lookup_delete_eq. reflexivity.
Qed.

Lemma findAll_follows_the_mutations_witness :
  exists after,
    fst (TodoService.findAll (snd (TodoService.create 5 9 buyMilk twoRecords)))
    = Resolved after /\
    after ≡ₚ mkTodo 9 "Buy milk" false None 5 5 :: (snd <$> map_to_list twoRecords).
Proof.
  destruct (findAll_follows_the_mutations 5 9 buyMilk "507f1f77bcf86cd799439011"
              setCompleted twoRecords (snd <$> map_to_list twoRecords))
    as (Hcreate & _).
  - reflexivity.
  - apply Hcreate. reflexivity.
Defined.

Lemma step_keyedById (c : Call) (db : gmap N Todo) :
  keyedById db -> keyedById (step c db).
Proof.
  destruct c as [now oid req]. intros Hdb.
  destruct req as [dto| |id|id u|id].
  - rewrite step_POST.
    destruct (create_cases now oid dto db) as [[e ->]|[t (-> & _ & Hid & _)]];
      cbn [snd]; [exact Hdb|].
    intros k t' [[<- <-]|[_ Hk]]%lookup_insert_Some; [exact Hid | eauto].
  - exact Hdb.
  - now rewrite step_GET_todos_id.
  - rewrite step_PUT. unfold TodoService.update, findByIdAndUpdate.
    destruct (ObjectId.castObjectId id) as [k0|]; [|exact Hdb].
    destruct (db !! k0) as [t0|] eqn:Ht0; [|exact Hdb]. cbn [snd].
    intros k t' [[<- <-]|[_ Hk]]%lookup_insert_Some; [cbn; eauto | eauto].
  - rewrite step_DELETE. unfold TodoService.delete, findByIdAndDelete.
    destruct (ObjectId.castObjectId id) as [k0|]; [|exact Hdb].
    destruct (db !! k0) as [t0|] eqn:Ht0; [|exact Hdb]. cbn [snd].
    intros k t' [_ Hk]%lookup_delete_Some. eauto.
Qed.

Lemma run_keyedById (calls : list Call) (db : gmap N Todo) :
  keyedById db -> keyedById (run calls db).
Proof.
  revert db. induction calls as [|c calls IH]; intros db Hdb; [exact Hdb|].
  rewrite run_cons. apply IH. now apply step_keyedById.
Qed.

Lemma fmap_id_snd (l : list (N * Todo)) :
  (forall k t, (k, t) ∈ l -> _id t = k) -> _id <$> (snd <$> l) = fst <$> l.
Proof.
  induction l as [|[k t] l IH]; intros Hl; [reflexivity|]. cbn.
  rewrite (Hl k t) by left. f_equal. apply IH. intros k' t' Hin. apply Hl. now right.
Qed.

(** X2: However the requests went, every record is stored under its own [_id],
    and so no two records that [findAll] lists have the same [_id]. *)
Theorem listed_identifiers_are_distinct (calls : list Call) :
  keyedById (run calls ∅) /\
  forall l, fst (TodoService.findAll (run calls ∅)) = Resolved l -> NoDup (_id <$> l).
Proof.
  assert (Hkeyed : keyedById (run calls ∅)).
  { apply run_keyedById. intros k t Hk. now rewrite lookup_empty in Hk. }
  split; [exact Hkeyed|]. intros l [= <-].
  rewrite fmap_id_snd; [apply NoDup_fst_map_to_list|].
  intros k t Hin%elem_of_map_to_list. now apply Hkeyed.
Qed.

End Listing.

(** ** Timestamps and the life of a record *)

Section Lifetime.

Import Mongoose TodoController.

Lemma step_stampedBy (c : Call) (lo : Z) (db : gmap N Todo) :
  (lo <= at_time c)%Z -> stampedBy lo db -> stampedBy (at_time c) (step c db).
Proof.
  destruct c as [now oid req]. cbn [at_time]. intros Hlo Hdb.
  assert (Hold : stampedBy now db).
  { intros k t Hk. specialize (Hdb k t Hk). lia. }
  destruct req as [dto| |id|id u|id].
  - rewrite step_POST.
    destruct (create_cases now oid dto db)
      as [[e ->]|[t (-> & _ & _ & _ & _ & _ & _ & Hc & Hu)]]; cbn [snd]; [exact Hold|].
    intros k t' [[<- <-]|[_ Hk]]%lookup_insert_Some; [lia | eauto].
  - exact Hold.
  - now rewrite step_GET_todos_id.
  - rewrite step_PUT. unfold TodoService.update, findByIdAndUpdate.
    destruct (ObjectId.castObjectId id) as [k0|]; [|exact Hold].
    destruct (db !! k0) as [t0|] eqn:Ht0; [|exact Hold]. cbn [snd].
    intros k t' [[<- <-]|[_ Hk]]%lookup_insert_Some; [|eauto].
    cbn. specialize (Hdb _ _ Ht0). lia.
  - rewrite step_DELETE. unfold TodoService.delete, findByIdAndDelete.
    destruct (ObjectId.castObjectId id) as [k0|]; [|exact Hold].
    destruct (db !! k0) as [t0|] eqn:Ht0; [|exact Hold]. cbn [snd].
    intros k t' [_ Hk]%lookup_delete_Some. eauto.
Qed.

Lemma run_stampedBy (calls : list Call) (lo : Z) (db : gmap N Todo) :
  servedInOrder lo calls = true -> stampedBy lo db ->
  exists hi, stampedBy hi (run calls db).
Proof.
  revert lo db. induction calls as [|c calls IH]; intros lo db Horder Hdb.
  - now exists lo.
  - cbn in Horder. apply andb_true_iff in Horder as [Hlo Hrest].
    apply Z.leb_le in Hlo. rewrite run_cons.
    apply (IH (at_time c)); [exact Hrest | now apply step_stampedBy with lo].
Qed.

(** X3: When the requests are served at times that never go back, every record
    of the collection they leave has [createdAt] not after [updatedAt]. *)
Theorem createdAt_not_after_updatedAt (from : Z) (calls : list Call) :
  servedInOrder from calls = true ->
  forall k t, run calls ∅ !! k = Some t -> (createdAt t <= updatedAt t)%Z.
Proof.
  intros Horder k t Hk.
  destruct (run_stampedBy calls from ∅ Horder) as [hi Hhi].
  - intros k' t' Hk'. now rewrite lookup_empty in Hk'.
  - now apply (Hhi k t).
Qed.

Lemma createdAt_not_after_updatedAt_witness :
  exists t,
    run [mkCall 1 sampleId (POST_todos buyGroceries);
         mkCall 4 0 (PUT_todos_id "507f1f77bcf86cd799439011" setCompleted);
         mkCall 4 7 (POST_todos buyMilk)] ∅ !! sampleId = Some t /\
    (createdAt t <= updatedAt t)%Z.
Proof.
  exists (mkTodo sampleId "Buy groceries" true (Some "Milk and eggs") 1 4).
  assert (Hstored :
    run [mkCall 1 sampleId (POST_todos buyGroceries);
         mkCall 4 0 (PUT_todos_id "507f1f77bcf86cd799439011" setCompleted);
         mkCall 4 7 (POST_todos buyMilk)] ∅ !! sampleId
    = Some (mkTodo sampleId "Buy groceries" true (Some "Milk and eggs") 1 4))
    by (vm_compute; reflexivity).
  split; [exact Hstored|].
  eapply (createdAt_not_after_updatedAt 0); [|exact Hstored]. reflexivity.
Defined.

Lemma step_keeps_record (c : Call) (db : gmap N Todo) (k : N) (t : Todo) :
  deletesKey k (request c) = false ->
  db !! k = Some t ->
  exists t', step c db !! k = Some t' /\ _id t' = _id t /\ createdAt t' = createdAt t.
Proof.
  destruct c as [now oid req]. cbn [request]. intros Hreq Hk.
  destruct req as [dto| |id|id u|id].
  - rewrite step_POST.
    destruct (create_cases now oid dto db) as [[e ->]|[t0 (-> & Hfree & _)]];
      cbn [snd]; [eauto|].
    exists t. rewrite lookup_insert_ne by congruence. auto.
  - eauto.
  - rewrite step_GET_todos_id. eauto.
  - rewrite step_PUT. unfold TodoService.update, findByIdAndUpdate.
    destruct (ObjectId.castObjectId id) as [k0|]; [|eauto].
    destruct (db !! k0) as [t0|] eqn:Ht0; [|eauto]. cbn [snd].
    destruct (decide (k0 = k)) as [->|Hne].
    + rewrite lookup_insert_eq. assert (t0 = t) as -> by congruence. eauto.
    + rewrite lookup_insert_ne by exact Hne. eauto.
  - rewrite step_DELETE. unfold TodoService.delete, findByIdAndDelete.
    cbn in Hreq. destruct (ObjectId.castObjectId id) as [k0|]; [|eauto].
    apply N.eqb_neq in Hreq.
    destruct (db !! k0) as [t0|] eqn:Ht0; [|eauto]. cbn [snd].
    rewrite lookup_delete_ne by congruence. eauto.
Qed.

(** X4: A stored record stays in the collection, under the same [_id] and with
    the same [createdAt], through every sequence of requests that has no
    delete of its identifier. *)
Theorem record_stays_until_deleted (calls : list Call) (db : gmap N Todo)
    (k : N) (t : Todo) :
  Forall (fun c => deletesKey k (request c) = false) calls ->
  db !! k = Some t ->
  exists t',
    run calls db !! k = Some t' /\ _id t' = _id t /\ createdAt t' = createdAt t.
Proof.
  intros Hcalls. revert db t.
  induction Hcalls as [|c calls Hc _ IH]; intros db t Hk; [eauto|].
  rewrite run_cons.
  destruct (step_keeps_record c db k t Hc Hk) as (t1 & Hk1 & Hid1 & Hcreated1).
  destruct (IH _ _ Hk1) as (t' & Hk' & Hid' & Hcreated').
  exists t'. repeat split; [exact Hk' | congruence | congruence].
Qed.

Lemma record_stays_until_deleted_witness :
  exists t',
    run [mkCall 2 sampleId (POST_todos buyMilk);
         mkCall 3 0 (PUT_todos_id "507f1f77bcf86cd799439011" setCompleted);
         mkCall 4 0 (DELETE_todos_id "507f1f77bcf86cd79943ffff")]
      {[ sampleId := mkTodo sampleId "Buy groceries" false (Some "Milk and eggs") 1 1 ]}
      !! sampleId = Some t' /\
    _id t' = sampleId /\ createdAt t' = 1%Z.
Proof.
  apply (record_stays_until_deleted _ _ sampleId
           (mkTodo sampleId "Buy groceries" false (Some "Milk and eggs") 1 1)).
  - repeat constructor.
  - reflexivity.
Defined.

End Lifetime.

(** ** How the calls compose *)

Section Composition.

Import Mongoose Nest TodoController.

Lemma applyUpdate_applyUpdate now1 now2 u1 u2 t :
  applyUpdate now2 u2 (applyUpdate now1 u1 t) = applyUpdate now2 (mergeUpdate u1 u2) t.
Proof.
  unfold applyUpdate, mergeUpdate. cbn.
  destruct (UpdateTodoDto.title u2), (UpdateTodoDto.completed u2),
    (UpdateTodoDto.description u2); reflexivity.
Qed.

Lemma mergeUpdate_diag u : mergeUpdate u u = u.
Proof.
  destruct u as [[?|] [?|] [?|]]; reflexivity.
Qed.

(** X5: Two updates of the same identifier, one after the other, return and
    store what one update does whose body has the fields of the second and,
    where the second has none, those of the first, made at the time of the
    second; so an update repeated at the same time changes nothing more. *)
Theorem update_after_update (now1 now2 : Z) (id : string) (u1 u2 : UpdateTodoDto.t)
    (db : gmap N Todo) :
  TodoService.update now2 id u2 (snd (TodoService.update now1 id u1 db))
  = TodoService.update now2 id (mergeUpdate u1 u2) db /\
  TodoService.update now1 id u1 (snd (TodoService.update now1 id u1 db))
  = TodoService.update now1 id u1 db.
Proof.
  assert (Hgen : forall n1 n2 v1 v2,
    TodoService.update n2 id v2 (snd (TodoService.update n1 id v1 db))
    = TodoService.update n2 id (mergeUpdate v1 v2) db).
  { intros n1 n2 v1 v2. unfold TodoService.update, findByIdAndUpdate.
    destruct (ObjectId.castObjectId id) as [k|]; cbn [snd]; [|reflexivity].
    destruct (db !! k) as [t|] eqn:Hk; cbn [snd].
    - rewrite lookup_insert_eq, insert_insert_eq. now rewrite applyUpdate_applyUpdate.
    - now rewrite Hk. }
  split; [apply Hgen|]. rewrite Hgen. now rewrite mergeUpdate_diag.
Qed.

(** X6: A second delete of the same identifier leaves the collection as the
    first left it, and for a well-formed identifier it returns [null]. *)
Theorem delete_after_delete (id : string) (db : gmap N Todo) :
  snd (TodoService.delete id (snd (TodoService.delete id db)))
  = snd (TodoService.delete id db) /\
  (forall k, ObjectId.castObjectId id = Some k ->
     fst (TodoService.delete id (snd (TodoService.delete id db))) = Resolved None).
Proof.
  unfold TodoService.delete, findByIdAndDelete.
  destruct (ObjectId.castObjectId id) as [k|]; cbn [snd].
  - destruct (db !! k) as [t|] eqn:Hk; cbn [snd].
    + rewrite lookup_delete_eq. split; [reflexivity|]. intros k' _. reflexivity.
    + rewrite Hk. split; [reflexivity|]. intros k' _. reflexivity.
  - split; [reflexivity|]. intros k' [=].
Qed.




Lemma step_key_provenance (c : Call) (db : gmap N Todo) (k : N) :
  is_Some (step c db !! k) -> is_Some (db !! k) \/ createsKey k c = true.
Proof.
  destruct c as [now oid req]. unfold createsKey. cbn [request fresh_id].
  destruct req as [dto| |id|id u|id].
  - rewrite step_POST.
    destruct (create_cases now oid dto db) as [[e ->]|[t (-> & _)]]; cbn [snd]; [auto|].
    destruct (decide (oid = k)) as [->|Hne].
    + intros _. right. apply N.eqb_refl.
    + rewrite lookup_insert_ne by exact Hne. auto.
  - auto.
  - rewrite step_GET_todos_id. auto.
  - rewrite step_PUT. unfold TodoService.update, findByIdAndUpdate.
    destruct (ObjectId.castObjectId id) as [k0|]; [|auto].
    destruct (db !! k0) as [t0|] eqn:Ht0; [|auto]. cbn [snd].
    destruct (decide (k0 = k)) as [->|Hne].
    + intros _. left. now exists t0.
    + rewrite lookup_insert_ne by exact Hne. auto.
  - rewrite step_DELETE. unfold TodoService.delete, findByIdAndDelete.
    destruct (ObjectId.castObjectId id) as [k0|]; [|auto].
    destruct (db !! k0) as [t0|] eqn:Ht0; [|auto]. cbn [snd].
    intros [t [_ Hk]%lookup_delete_Some]. left. now exists t.
Qed.

(** X8: Records come from creates only: every identifier in the collection that
    a sequence of requests leaves, starting from the empty one, was handed
    out by a create of that sequence; an update never adds a record. *)
Theorem stored_identifier_was_created (calls : list Call) (k : N) :
  is_Some (run calls ∅ !! k) -> existsb (createsKey k) calls = true.
Proof.
  enough (Hgen : forall db, is_Some (run calls db !! k) ->
                 is_Some (db !! k) \/ existsb (createsKey k) calls = true).
  { intros Hk. destruct (Hgen ∅ Hk) as [[t Ht]|Hc]; [|exact Hc].
    now rewrite lookup_empty in Ht. }
  induction calls as [|c calls IH]; intros db Hk; [now left|].
  rewrite run_cons in Hk. cbn [existsb].
  destruct (IH _ Hk) as [Hstep|Hrest].
  - destruct (step_key_provenance c db k Hstep) as [Hdb|Hc]; [now left|].
    right. now rewrite Hc.
  - right. rewrite Hrest. apply orb_true_r.
Qed.

Lemma stored_identifier_was_created_witness :
  existsb (createsKey sampleId)
    [mkCall 1 sampleId (POST_todos buyGroceries);
     mkCall 2 0 (PUT_todos_id "507f1f77bcf86cd799439011" setCompleted)] = true.
Proof.
  apply stored_identifier_was_created.
  exists (mkTodo sampleId "Buy groceries" true (Some "Milk and eggs") 1 2).
  vm_compute. reflexivity.
Defined.

End Composition.

(** ** The page: guards, the form and the list mirror *)

Section PageFacts.

Import Page.

Lemma trimEnd_empty (s : string) : trimEnd s = "" <-> allWhiteSpace s = true.
Proof.
  induction s as [|c s IH]; cbn; [tauto|].
  destruct (isWhiteSpace c); cbn; [|split; discriminate].
  destruct (String.eqb_spec (trimEnd s) "") as [He|Hne].
  - split; [intros _; now apply IH | reflexivity].
  - split; [discriminate|]. intros Hs. apply IH in Hs. contradiction.
Qed.

Lemma allWhiteSpace_trimStart (s : string) :
  allWhiteSpace (trimStart s) = allWhiteSpace s.
Proof.
  induction s as [|c s IH]; cbn; [reflexivity|].
  destruct (isWhiteSpace c) eqn:Hc; cbn; [exact IH | now rewrite Hc].
Qed.

(** [!s.trim()] holds exactly of the strings made of white space only. *)
Lemma blank_allWhiteSpace (s : string) : blank s = allWhiteSpace s.
Proof.
  unfold blank, trim. rewrite <- (allWhiteSpace_trimStart s).
  destruct (String.eqb_spec (trimEnd (trimStart s)) "") as [He|Hne].
  - symmetry. now apply trimEnd_empty.
  - destruct (allWhiteSpace (trimStart s)) eqn:Hs; [|reflexivity].
    apply trimEnd_empty in Hs. contradiction.
Qed.

(** X9: The guards, for titles of code units below 256 (the strings of this
    model, whose white space is 9 to 13, 32 and 160): [createTodo] sends its
    POST exactly when the title has a code unit that is not white space, and
    [saveEdit] its PUT exactly when the edited title has one; otherwise, and
    when [deleteTodo] is not confirmed, no call is made and the state stays
    as it is. *)
Theorem handlers_send_unless_blank (id : string) (r : FetchResult) (st : State) :
  (if allWhiteSpace (title st)
   then createTodo r st = (st, [PreventDefault])
   else hd_error (issued (snd (createTodo r st))) = Some (createCall st)) /\
  (if allWhiteSpace (editTitle st)
   then saveEdit id r st = (st, [])
   else hd_error (issued (snd (saveEdit id r st))) = Some (editCall id st)) /\
  deleteTodo id false r st = (st, []).
Proof.
  unfold createTodo, saveEdit. rewrite !blank_allWhiteSpace.
  split; [|split; [|reflexivity]].
  - destruct (allWhiteSpace (title st)); [reflexivity|].
    destruct r as [|status]; [reflexivity|]. now destruct (ok status).
  - destruct (allWhiteSpace (editTitle st)); [reflexivity|].
    now destruct r.
Qed.

(** X10: No handler touches the list mirror: whatever the action and however its
    call ends, [todos] is what it was.  It changes only in [fetchTodos]: when
    the fetch or the parsing throws it stays, and when the body parses it
    becomes the parsed value, whatever the status of the response and
    whether or not the value is a list of todos. *)
Theorem todos_change_only_by_list_fetch (a : Action) (r : FetchResult)
    (todo : Todo.t) (id : string) (confirmed : bool) (status : Z) (data : Json)
    (st : State) :
  todos (fst (perform a r st)) = todos st /\
  todos (fst (deleteTodo id confirmed r st)) = todos st /\
  todos (startEdit todo st) = todos st /\
  todos (cancelEdit st) = todos st /\
  todos (fst (fetchTodos ListThrew st)) = todos st /\
  todos (fst (fetchTodos (ListJson status data) st)) = data.
Proof.
  repeat split.
  - destruct a as [|i c|i|i]; cbn; unfold createTodo, saveEdit.
    + destruct (blank (title st)); [reflexivity|].
      destruct r as [|s]; [reflexivity|]. now destruct (ok s).
    + now destruct r.
    + destruct (blank (editTitle st)); [reflexivity|]. now destruct r.
    + now destruct r.
  - destruct confirmed, r; reflexivity.
Qed.

(** X11: A call that throws leaves the whole state as it was and is reported by an
    alert; a create that is answered with a status outside 2xx also leaves
    the state as it was, the form still filled, and is reported by nothing. *)
Theorem failed_call_keeps_state (a : Action) (status : Z) (st : State) :
  proceeds a st = true ->
  fst (perform a Threw st) = st /\
  (exists msg, In (Alert msg) (snd (perform a Threw st))) /\
  (ok status = false ->
     fst (createTodo (Response status) st) = st /\
     forall msg, ~ In (Alert msg) (snd (createTodo (Response status) st))).
Proof.
  intros Hguard. split; [|split].
  - destruct a as [|i c|i|i]; cbn in Hguard |- *; unfold createTodo, saveEdit;
      try (apply negb_true_iff in Hguard; rewrite Hguard); reflexivity.
  - destruct a as [|i c|i|i]; cbn in Hguard |- *; unfold createTodo, saveEdit;
      try (apply negb_true_iff in Hguard; rewrite Hguard);
      eexists; cbn; eauto 6.
  - intros Hok. unfold createTodo. rewrite Hok.
    destruct (blank (title st)); (split; [reflexivity|]);
      intros msg Hin; cbn in Hin; intuition discriminate.
Qed.

Lemma failed_call_keeps_state_witness :
  fst (perform (Save "507f1f77bcf86cd799439011") Threw
         (mkState (Todos []) "" "" (Some "507f1f77bcf86cd799439011") "Buy milk" "" false))
  = mkState (Todos []) "" "" (Some "507f1f77bcf86cd799439011") "Buy milk" "" false.
Proof.
  destruct (failed_call_keeps_state (Save "507f1f77bcf86cd799439011") 500
              (mkState (Todos []) "" "" (Some "507f1f77bcf86cd799439011") "Buy milk" "" false))
    as (Hstate & _).
  - reflexivity.
  - exact Hstate.
Defined.

(** X12: What a response does to the forms: [saveEdit] closes the edit and empties
    its two fields whatever the status, error statuses included, and leaves
    the create form alone; [createTodo] empties the create form when the
    status is 2xx and leaves the edit alone. *)
Theorem response_resets_the_form (id : string) (status : Z) (st : State) :
  (blank (editTitle st) = false ->
     fst (saveEdit id (Response status) st)
     = mkState (todos st) (title st) (description st) None "" "" true) /\
  (blank (title st) = false -> ok status = true ->
     fst (createTodo (Response status) st)
     = mkState (todos st) "" "" (editingId st) (editTitle st) (editDescription st) true).
Proof.
  unfold saveEdit, createTodo. split.
  - intros ->. reflexivity.
  - intros -> ->. reflexivity.
Qed.

Lemma response_resets_the_form_witness :
  fst (saveEdit "507f1f77bcf86cd799439011" (Response 500)
         (mkState (Todos []) "" "" (Some "507f1f77bcf86cd799439011") "Buy milk" "2%" false))
  = mkState (Todos []) "" "" None "" "" true.
Proof.
  destruct (response_resets_the_form "507f1f77bcf86cd799439011" 500
              (mkState (Todos []) "" "" (Some "507f1f77bcf86cd799439011") "Buy milk" "2%" false))
    as (Hsave & _).
  apply Hsave. reflexivity.
Defined.

(** X13: Opening an edit and cancelling it: from a state with no edit open, the
    state is back as it was, and a second cancel changes nothing. *)
Theorem cancelEdit_undoes_startEdit (todo : Todo.t) (st : State) :
  notEditing st ->
  cancelEdit (startEdit todo st) = st /\
  cancelEdit (cancelEdit (startEdit todo st)) = st.
Proof.
  destruct st as [ts ti de ei et ed lo]. intros (Hi & Ht & Hd). cbn in Hi, Ht, Hd.
  subst. split; reflexivity.
Qed.

Lemma cancelEdit_undoes_startEdit_witness :
  cancelEdit (startEdit (Todo.mk "507f1f77bcf86cd799439011" "Buy milk" None false None None)
                (mkState (Todos []) "draft" "" None "" "" false))
  = mkState (Todos []) "draft" "" None "" "" false.
Proof.
  apply (cancelEdit_undoes_startEdit
           (Todo.mk "507f1f77bcf86cd799439011" "Buy milk" None false None None)
           (mkState (Todos []) "draft" "" None "" "" false)).
  repeat split.
Defined.

(** X14: Saving an edit right after opening it sends the record's own title and
    description to the record's own address, with the empty string as
    description when the record has none; this needs the title not to be
    blank. *)
Theorem saveEdit_after_startEdit (todo : Todo.t) (r : FetchResult) (st : State) :
  allWhiteSpace (Todo.title todo) = false ->
  hd_error (issued (snd (saveEdit (Todo._id todo) r (startEdit todo st))))
  = Some {| method := PUT;
            url := API_URL +:+ "/" +:+ Todo._id todo;
            payload := Some (TitleDescription (Todo.title todo)
                               (default "" (Todo.description todo))) |}.
Proof.
  intros Htitle. unfold saveEdit. rewrite blank_allWhiteSpace. cbn [startEdit].
  change (editTitle (startEdit todo st)) with (Todo.title todo).
  rewrite Htitle. now destruct r.
Qed.

Lemma saveEdit_after_startEdit_witness :
  hd_error (issued (snd (saveEdit "507f1f77bcf86cd799439011" (Response 200)
     (startEdit (Todo.mk "507f1f77bcf86cd799439011" "Buy milk" None false None None)
        (mkState (Todos []) "" "" None "" "" false)))))
  = Some {| method := PUT;
            url := "http://localhost:3001/todos/507f1f77bcf86cd799439011";
            payload := Some (TitleDescription "Buy milk" "") |}.
Proof.
  apply (saveEdit_after_startEdit
           (Todo.mk "507f1f77bcf86cd799439011" "Buy milk" None false None None)).
  reflexivity.
Defined.

End PageFacts.

(** ** Start-up configuration *)

Section BootstrapFacts.

Import Bootstrap.

Lemma split_cons (s : string) : exists piece pieces, split s = piece :: pieces.
Proof.
  destruct s as [|c s]; cbn; [eauto|].
  destruct (Ascii.eqb c ","); [eauto|].
  destruct (split s); eauto.
Qed.

Lemma join_cons_char (c : ascii) (piece : string) (pieces : list string) :
  join "," (String c piece :: pieces) = String c (join "," (piece :: pieces)).
Proof. destruct pieces; reflexivity. Qed.

Lemma join_split (s : string) : join "," (split s) = s.
Proof.
  induction s as [|c s IH]; [reflexivity|]. cbn [split].
  destruct (Ascii.eqb_spec c ",") as [->|Hne].
  - destruct (split_cons s) as (piece & pieces & Hs). rewrite Hs in IH |- *.
    change (join "," ("" :: piece :: pieces))
      with (String "," (join "," (piece :: pieces))).
    now rewrite IH.
  - destruct (split_cons s) as (piece & pieces & Hs). rewrite Hs in IH |- *.
    rewrite join_cons_char. now rewrite IH.
Qed.

Lemma length_split (s : string) : length (split s) = S (commas s).
Proof.
  induction s as [|c s IH]; [reflexivity|]. cbn [split commas].
  destruct (Ascii.eqb c ","); cbn [length]; [now rewrite IH|].
  destruct (split_cons s) as (piece & pieces & Hs). now rewrite Hs in IH |- *.
Qed.

Lemma split_pieces (s : string) : Forall (fun piece => commas piece = O) (split s).
Proof.
  induction s as [|c s IH]; [repeat constructor|]. cbn [split].
  destruct (Ascii.eqb c ",") eqn:Hc; [constructor; [reflexivity | exact IH]|].
  destruct (split_cons s) as (piece & pieces & Hs). rewrite Hs in IH |- *.
  inversion IH as [|? ? Hpiece Hpieces]; subst.
  constructor; [|exact Hpieces]. cbn. now rewrite Hc.
Qed.

(** X15: The fall-backs: the database address is never the empty string and the
    port never the empty text, an unset or empty [MONGODB_URI] or [PORT]
    giving the default; the list of allowed origins is never empty, and it
    is the two defaults only when [CORS_ORIGINS] is unset: the empty text
    gives the single origin that is the empty string. *)
Theorem configuration_fallbacks (get : string -> option string) :
  uri get <> "" /\
  (get "MONGODB_URI" = None \/ get "MONGODB_URI" = Some "" ->
     uri get = "mongodb://localhost:27017/todoapp") /\
  snd (bootstrap get) <> PortText "" /\
  (get "PORT" = None \/ get "PORT" = Some "" -> snd (bootstrap get) = PortNumber 3001) /\
  origin (fst (bootstrap get)) <> [] /\
  (get "CORS_ORIGINS" = None ->
     origin (fst (bootstrap get)) = ["http://localhost:3000"; "http://localhost:3002"]) /\
  (get "CORS_ORIGINS" = Some "" -> origin (fst (bootstrap get)) = [""]).
Proof.
  unfold uri, orElse, bootstrap, port, corsOrigins. cbn [fst snd origin].
  repeat split.
  - destruct (get "MONGODB_URI") as [s|]; [|discriminate].
    destruct (String.eqb_spec s ""); [discriminate | assumption].
  - intros [-> | ->]; reflexivity.
  - destruct (get "PORT") as [s|]; [|discriminate].
    destruct (String.eqb_spec s ""); [discriminate | congruence].
  - intros [-> | ->]; reflexivity.
  - destruct (get "CORS_ORIGINS") as [s|]; [|discriminate].
    destruct (split_cons s) as (piece & pieces & ->). discriminate.
  - intros ->. reflexivity.
  - intros ->. reflexivity.
Qed.

(** X16: A [CORS_ORIGINS] that is set is cut at its commas: the allowed origins
    are one more than it has commas, none of them has a comma, and joined by
    commas they spell the variable again. *)
Theorem corsOrigins_split_at_commas (get : string -> option string) (s : string) :
  get "CORS_ORIGINS" = Some s ->
  join "," (origin (fst (bootstrap get))) = s /\
  length (origin (fst (bootstrap get))) = S (commas s) /\
  Forall (fun piece => commas piece = O) (origin (fst (bootstrap get))).
Proof.
  intros Hget. unfold bootstrap, corsOrigins. cbn [fst origin]. rewrite Hget.
  split; [apply join_split|]. split; [apply length_split | apply split_pieces].
Qed.

Lemma corsOrigins_split_at_commas_witness :
  join "," (origin (fst (bootstrap
     (fun key => if String.eqb key "CORS_ORIGINS"
                 then Some "http://localhost:3000,https://todo.example"
                 else None))))
  = "http://localhost:3000,https://todo.example".
Proof.
  apply (corsOrigins_split_at_commas
           (fun key => if String.eqb key "CORS_ORIGINS"
                       then Some "http://localhost:3000,https://todo.example"
                       else None)).
  reflexivity.
Defined.

End BootstrapFacts.
